(** * The telemetry / control layer of [app.py]

    A shallow embedding of the Flask application's helper functions
    ([fetch_live_data], [send_control_command], [connect_to_neon],
    [fetch_historical_data], [fetch_intrusion_logs]) and of the two request
    handlers that dispatch control commands ([control_device_api],
    [manage_security]).

    The code talks to two collaborators, the Adafruit IO feed service and the
    Neon PostgreSQL store.  Both are modelled as an environment the functions
    run against; every call to them is recorded in a chronological trace, so
    that statements such as "without touching the network" or "the connection
    is closed before returning" are statements about that trace. *)

From Stdlib Require Import Ascii String QArith_base PrimFloat.
From stdpp Require Import base strings pretty gmap list sorting lexico.

Local Open Scope string_scope.
Local Open Scope list_scope.
Local Open Scope stdpp_scope.
Local Set Warnings "-register-all".

(** ** Python strings

    A string is a sequence of characters with codes below 256.  [upper],
    [lower] and [capitalize] change the letters [a]-[z] and [A]-[Z] only:
    they are [str.upper], [str.lower] and [str.capitalize] exactly on ASCII
    text ([isascii]).  Python maps other letters too, and not one to one, so
    nothing is concluded from these functions about text that is not
    ASCII. *)

Module Py.

Definition ascii_upper (c : ascii) : ascii :=
  let n := nat_of_ascii c in
  if (97 <=? n)%nat && (n <=? 122)%nat then ascii_of_nat (n - 32) else c.

Definition ascii_lower (c : ascii) : ascii :=
  let n := nat_of_ascii c in
  if (65 <=? n)%nat && (n <=? 90)%nat then ascii_of_nat (n + 32) else c.

Fixpoint str_map (f : ascii → ascii) (s : string) : string :=
  match s with
  | EmptyString => EmptyString
  | String c s' => String (f c) (str_map f s')
  end.

(** [s.upper()] *)
Definition upper (s : string) : string := str_map ascii_upper s.

(** [s.lower()] *)
Definition lower (s : string) : string := str_map ascii_lower s.

(** [s.capitalize()]: first character upper-cased, the rest lower-cased. *)
Definition capitalize (s : string) : string :=
  match s with
  | EmptyString => EmptyString
  | String c s' => String (ascii_upper c) (lower s')
  end.

(** [s.replace(a, b)] for one-character [a] and [b]. *)
Definition replace (a b : ascii) (s : string) : string :=
  str_map (λ c, if Ascii.eqb c a then b else c) s.

(** [len(s)] *)
Definition len (s : string) : nat := String.length s.

(** [s.isascii()]: every character has a code below 128. *)
Fixpoint isascii (s : string) : bool :=
  match s with
  | EmptyString => true
  | String c s' => (nat_of_ascii c <? 128)%nat && isascii s'
  end.

(** Truthiness of a string: [not s] holds for the empty string. *)
Definition truthy (s : string) : bool :=
  match s with EmptyString => false | String _ _ => true end.

(** [x or fallback] where [x] is a string or [None]. *)
Definition or_else (x : option string) (fallback : string) : string :=
  match x with
  | Some s => if truthy s then s else fallback
  | None => fallback
  end.

End Py.

(** ** JSON values, as [response.json()] delivers them *)

Inductive json : Type :=
  | JNull
  | JBool (b : bool)
  | JNum (n : Z)
  | JStr (s : string)
  | JArr (items : list json)
  | JObj (fields : list (string * json)).

(** The Python [dict] built from a JSON object keeps the last binding of a
    repeated key. *)
Fixpoint fields_get (k : string) (fields : list (string * json)) : option json :=
  match fields with
  | [] => None
  | (k', v) :: rest =>
      match fields_get k rest with
      | Some w => Some w
      | None => if String.eqb k' k then Some v else None
      end
  end.

(** ** Exceptions *)

Inductive exn_class : Type :=
  | RequestException   (* requests.exceptions.RequestException and subclasses *)
  | Psycopg2Error      (* psycopg2.Error and subclasses *)
  | AttributeError
  | TypeError.

Record exn : Type := Exn { exn_cls : exn_class; exn_msg : string }.

Global Instance exn_class_eq_dec : EqDecision exn_class.
Proof. solve_decision. Defined.

(** ** The feed service (Adafruit IO over HTTP) *)

Inductive http_method : Type := GET | POST.

Record http_request : Type := HttpRequest {
  rq_method : http_method;
  rq_url : string;
  rq_headers : list (string * string);
  rq_json : option json;
  rq_timeout : nat
}.

Inductive http_body : Type :=
  | NotJson (detail : string)
  | Json (j : json).

(** What one HTTP exchange can come to: the transport fails ([requests]
    raises a [RequestException] such as [ConnectionError] or [Timeout]), or a
    response arrives with a status code, a reason phrase and a body. *)
Inductive http_outcome : Type :=
  | TransportFailure (detail : string)
  | Response (status : nat) (reason : string) (body : http_body).

Record response : Type := {
  status_code : nat;
  reason_phrase : string;
  url : string;
  content : http_body
}.

(** ** The store (Neon PostgreSQL through psycopg2) *)

(** Civil timestamps, as the driver delivers a [timestamp] column. *)
Record datetime : Type := DateTime {
  year : nat; month : nat; day : nat;
  hour : nat; minute : nat; second : nat; microsecond : nat
}.

Definition date : Type := (nat * nat * nat)%type.

(** The [motion] column: a boolean or an integer, or NULL. *)
Inductive motion_flag : Type :=
  | MotionNull
  | MotionBool (b : bool)
  | MotionInt (n : Z).

(** Numeric column values as the driver hands them over, and Python's
    [float(...)] on them. *)
Class Numeric : Type := {
  number : Type;
  pyfloat : Type;
  float_of : number → pyfloat
}.

(** Columns of type [double precision]: the driver hands their values over
    as Python floats, and [float(x)] of a float is that float. *)
Definition double_precision : Numeric :=
  {| number := PrimFloat.float; pyfloat := PrimFloat.float;
     float_of := λ x, x |}.

(** One row of the table [sensor_data]; [None] is SQL NULL. *)
Record row `{Numeric} : Type := Row {
  ts_iso : option datetime;
  temp_c : option number;
  humidity_pct : option number;
  motion : motion_flag;
  image_path : option string
}.
Arguments Row {_} _ _ _ _ _.

(** The two statements the application sends. *)
Inductive statement : Type :=
  | SelectHistory (db_column : string)
  | SelectIntrusions.

(** How the store behaves during one request: whether [psycopg2.connect],
    [conn.cursor()] and [cursor.execute] raise a [psycopg2.Error], how the
    text bound to [%s] reads as a date ([None]: invalid input, the driver
    raises), and the contents of the table. *)
Record database `{Numeric} : Type := {
  db_connect_error : option string;
  db_cursor_error : option string;
  db_execute_error : option string;
  db_date_of_text : string → option date;
  sensor_data : list row
}.

(** ** Traces and the environment *)

Inductive event : Type :=
  | NetCall (rq : http_request)
  | DbConnect (dsn : string) (opened : bool)
  | DbCursor
  | DbExecute (stmt : statement) (param : string)
  | DbFetchAll
  | DbClose
  | Stdout (line : string).

Abbreviation trace := (list event).

Record environment `{Numeric} : Type := {
  AIO_USERNAME : string;
  AIO_KEY : string;
  NEON_DATABASE_URL : string;
  adafruit_io : trace → http_request → http_outcome;
  neon : database
}.

(** ** Computations: a trace is threaded, an exception may escape *)

Inductive outcome (A : Type) : Type :=
  | Returns (a : A)
  | Raises (e : exn).
Arguments Returns {A} a.
Arguments Raises {A} e.

Definition io (A : Type) : Type := trace → outcome A * trace.

Global Instance io_ret : MRet io := λ A a t, (Returns a, t).

Global Instance io_bind : MBind io := λ A B f m t,
  match m t with
  | (Returns a, t') => f a t'
  | (Raises e, t') => (Raises e, t')
  end.

Definition raise {A} (e : exn) : io A := λ t, (Raises e, t).

Definition emit (ev : event) : io unit := λ t, (Returns (), t ++ [ev]).

(** [try: body  except cls as e: handler e] *)
Definition try_except {A} (body : io A) (cls : exn_class) (handler : exn → io A) : io A :=
  λ t,
    match body t with
    | (Returns a, t') => (Returns a, t')
    | (Raises e, t') =>
        if decide (exn_cls e = cls) then handler e t' else (Raises e, t')
    end.

(** [try: body  finally: cleanup] *)
Definition try_finally {A} (body : io A) (cleanup : io unit) : io A :=
  λ t,
    let '(r, t') := body t in
    match cleanup t' with
    | (Returns _, t'') => (r, t'')
    | (Raises e, t'') => (Raises e, t'')
    end.

(** [for x in xs: acc = body acc x] *)
Fixpoint for_each {A B} (xs : list A) (acc : B) (body : B → A → io B) : io B :=
  match xs with
  | [] => mret acc
  | x :: xs' => acc' ← body acc x; for_each xs' acc' body
  end.

Definition print (line : string) : io unit := emit (Stdout line).

(** ** Configuration tables *)

(** Feeds used by the application. *)
Definition FEEDS : gmap string string :=
  list_to_map [
    ("temperature", "home/temperature");
    ("humidity", "home/humidity");
    ("motion", "home/motion");
    ("ctrl_light", "home/control/light");
    ("ctrl_lcd_text", "home/control/lcd_message");
    ("ctrl_mode", "home/control/mode");
    ("last_image", "home/last_image_ts")
  ].

(** Database sensor and column mapping. *)
Definition DB_SENSOR_MAP : gmap string string :=
  list_to_map [
    ("temperature", "temp_c");
    ("humidity", "humidity_pct")
  ].

(** ** The [requests] primitives the code calls *)

Section Requests.
Context `{Numeric} (E : environment).

Definition send (rq : http_request) : io response := λ t,
  match adafruit_io E t rq with
  | TransportFailure detail =>
      (Raises (Exn RequestException detail), t ++ [NetCall rq])
  | Response st reason body =>
      (Returns {| status_code := st; reason_phrase := reason;
                  url := rq_url rq; content := body |},
       t ++ [NetCall rq])
  end.

Definition requests_get (url : string) (headers : list (string * string))
    (timeout : nat) : io response :=
  send (HttpRequest GET url headers None timeout).

Definition requests_post (url : string) (headers : list (string * string))
    (payload : json) (timeout : nat) : io response :=
  send (HttpRequest POST url headers (Some payload) timeout).

End Requests.

(** [response.raise_for_status()] raises [HTTPError] (a [RequestException])
    for a 4xx or 5xx status and for no other. *)
Definition is_error_status (st : nat) : bool :=
  (400 <=? st)%nat && (st <? 600)%nat.

Definition http_error_msg (r : response) : string :=
  pretty (status_code r)
  +:+ (if (status_code r <? 500)%nat then " Client Error: " else " Server Error: ")
  +:+ reason_phrase r +:+ " for url: " +:+ url r.

Definition raise_for_status (r : response) : io unit :=
  if is_error_status (status_code r)
  then raise (Exn RequestException (http_error_msg r))
  else mret ().

(** [response.json()]: a body that does not decode raises
    [requests.exceptions.JSONDecodeError], which is a [RequestException]
    (requests 2.27 and later). *)
Definition response_json (r : response) : io json :=
  match content r with
  | NotJson detail => raise (Exn RequestException detail)
  | Json j => mret j
  end.

Definition type_name (j : json) : string :=
  match j with
  | JNull => "NoneType"
  | JBool _ => "bool"
  | JNum _ => "int"
  | JStr _ => "str"
  | JArr _ => "list"
  | JObj _ => "dict"
  end.

(** [obj.get(key, default)]: only a [dict] has the method. *)
Definition py_get (obj : json) (key : string) (fallback : json) : io json :=
  match obj with
  | JObj fields => mret (default fallback (fields_get key fields))
  | _ => raise (Exn AttributeError
                  ("'" +:+ type_name obj +:+ "' object has no attribute 'get'"))
  end.

(** ** Adafruit IO interactions *)

Section Adafruit.
Context `{Numeric} (E : environment).

Definition AIO_HEADERS : list (string * string) := [("X-AIO-Key", AIO_KEY E)].

Definition last_data_url (feed_name : string) : string :=
  "https://io.adafruit.com/api/v2/" +:+ AIO_USERNAME E
  +:+ "/feeds/" +:+ feed_name +:+ "/data/last".

Definition data_url (feed_name : string) : string :=
  "https://io.adafruit.com/api/v2/" +:+ AIO_USERNAME E
  +:+ "/feeds/" +:+ feed_name +:+ "/data".

(** One iteration of the loop of [fetch_live_data]. *)
Definition fetch_live_step (data : gmap string json) (feed_key : string)
    : io (gmap string json) :=
  match FEEDS !! feed_key with
  | Some feed_name =>
      if Py.truthy feed_name then
        try_except
          (response ← requests_get E (last_data_url feed_name) AIO_HEADERS 5;
           raise_for_status response;;
           body ← response_json response;
           value ← py_get body "value" (JStr "N/A");
           mret (<[feed_key := value]> data))
          RequestException
          (λ e,
             print ("Error fetching live data for " +:+ feed_key +:+ ": "
                    +:+ exn_msg e);;
             mret (<[feed_key := JStr "Error"]> data))
      else mret data  (* continue *)
  | None => mret data  (* continue *)
  end.

Definition fetch_live_data : io (gmap string json) :=
  for_each ["temperature"; "humidity"; "motion"] ∅ fetch_live_step.

Definition send_control_command (feed_key value : string) : io (bool * string) :=
  match FEEDS !! feed_key with
  | Some feed_name =>
      if Py.truthy feed_name then
        let payload := JObj [("value", JStr value)] in
        try_except
          (response ← requests_post E (data_url feed_name) AIO_HEADERS payload 5;
           raise_for_status response;;
           mret (true, "Success"))
          RequestException
          (λ e,
             print ("Error sending control command to " +:+ feed_key +:+ ": "
                    +:+ exn_msg e);;
             mret (false, "Error: " +:+ exn_msg e))
      else mret (false, "Invalid feed key")
  | None => mret (false, "Invalid feed key")
  end.

End Adafruit.

(** ** The store's side of a query *)

(** The order of [ORDER BY ts_iso]: timestamps compare field by field. *)
Definition ts_fields (ts : datetime) : list nat :=
  [year ts; month ts; day ts; hour ts; minute ts; second ts; microsecond ts].

Fixpoint lex_leb (xs ys : list nat) : bool :=
  match xs, ys with
  | [], _ => true
  | _ :: _, [] => false
  | x :: xs', y :: ys' => (x <? y)%nat || ((x =? y)%nat && lex_leb xs' ys')
  end.

Definition ts_le (a b : datetime) : Prop := lex_leb (ts_fields a) (ts_fields b) = true.

Global Instance ts_le_dec : RelDecision ts_le.
Proof. intros a b. unfold ts_le. apply _. Defined.

(** Rows of a result set, compared by their first column. *)
Definition ts_ascending {V} (a b : datetime * V) : Prop := ts_le a.1 b.1.

Definition ts_descending {V} (a b : datetime * V) : Prop := ts_le b.1 a.1.

Global Instance ts_ascending_dec {V} : RelDecision (@ts_ascending V).
Proof. intros a b. unfold ts_ascending. apply _. Defined.

Global Instance ts_descending_dec {V} : RelDecision (@ts_descending V).
Proof. intros a b. unfold ts_descending. apply _. Defined.

(** SQL [DATE(ts)] *)
Definition DATE (ts : datetime) : date := (year ts, month ts, day ts).

(** [motion = TRUE OR motion = 1], read as the statement means it: the flag
    is the boolean true or the integer 1.  This is what the condition would
    select if the server evaluated it on a row; whether the server accepts
    the condition at all is [intrusion_statement_error] below. *)
Definition motion_detected (m : motion_flag) : bool :=
  match m with
  | MotionNull => false
  | MotionBool b => b
  | MotionInt n => (n =? 1)%Z
  end.

(** ** PostgreSQL's analysis of the intrusion statement

    Before it reads any row the server resolves every operator of a
    statement against the declared types of its operands.  In
    [motion = TRUE OR motion = 1] the constant [TRUE] has type [boolean] and
    the constant [1] has type [integer].  PostgreSQL has [=] between two
    booleans and between two numbers; it has none between a boolean and a
    number or a string, in either order, and no implicit cast that would
    supply one. *)

(** The types the column [motion] can be declared with. *)
Inductive column_type : Type :=
  | SqlBoolean
  | SqlSmallint
  | SqlInteger
  | SqlBigint
  | SqlReal
  | SqlDouble
  | SqlNumeric
  | SqlText
  | SqlVarchar.

Definition sql_type_name (ty : column_type) : string :=
  match ty with
  | SqlBoolean => "boolean"
  | SqlSmallint => "smallint"
  | SqlInteger => "integer"
  | SqlBigint => "bigint"
  | SqlReal => "real"
  | SqlDouble => "double precision"
  | SqlNumeric => "numeric"
  | SqlText => "text"
  | SqlVarchar => "character varying"
  end.

(** Whether [motion = TRUE] resolves for a column of this type. *)
Definition equals_boolean_resolves (ty : column_type) : bool :=
  match ty with
  | SqlBoolean => true
  | _ => false
  end.

(** Whether [motion = 1] resolves for a column of this type. *)
Definition equals_integer_resolves (ty : column_type) : bool :=
  match ty with
  | SqlSmallint | SqlInteger | SqlBigint | SqlReal | SqlDouble | SqlNumeric => true
  | SqlBoolean | SqlText | SqlVarchar => false
  end.

(** The error, if any, that the analysis of the intrusion statement ends
    with; the two comparisons are resolved from left to right. *)
Definition intrusion_statement_error (ty : column_type) : option string :=
  if negb (equals_boolean_resolves ty)
  then Some ("operator does not exist: " +:+ sql_type_name ty +:+ " = boolean")
  else if negb (equals_integer_resolves ty)
  then Some "operator does not exist: boolean = integer"
  else None.

Section Queries.
Context `{Numeric}.

(** The numeric columns of [sensor_data] by name. *)
Definition numeric_column (name : string) : option (row → option number) :=
  if String.eqb name "temp_c" then Some temp_c
  else if String.eqb name "humidity_pct" then Some humidity_pct
  else None.

(** [SELECT ts_iso, {db_column} FROM sensor_data WHERE DATE(ts_iso) = %s]
    on one row. *)
Definition select_history (col : row → option number) (d : date) (r : row)
    : option (datetime * option number) :=
  match ts_iso r with
  | Some ts => if bool_decide (DATE ts = d) then Some (ts, col r) else None
  | None => None
  end.

(** [SELECT ts_iso, image_path FROM sensor_data
     WHERE DATE(ts_iso) = %s AND (motion = TRUE OR motion = 1)
           AND image_path IS NOT NULL] on one row. *)
Definition select_intrusion (d : date) (r : row)
    : option (datetime * option string) :=
  match ts_iso r, image_path r with
  | Some ts, Some path =>
      if bool_decide (DATE ts = d) && motion_detected (motion r)
      then Some (ts, Some path) else None
  | _, _ => None
  end.

(** [... ORDER BY ts_iso;] *)
Definition history_rows (col : row → option number) (d : date) (table : list row)
    : list (datetime * option number) :=
  merge_sort ts_ascending (omap (select_history col d) table).

(** [... ORDER BY ts_iso DESC;] *)
Definition intrusion_rows (d : date) (table : list row)
    : list (datetime * option string) :=
  merge_sort ts_descending (omap (select_intrusion d) table).

End Queries.

(** ** [datetime.strftime] for the two formats in use *)

Definition digit (n : nat) : ascii := ascii_of_nat (48 + n mod 10).

Definition pad2 (n : nat) : string :=
  String (digit (n / 10)) (String (digit n) EmptyString).

(** [ts.strftime('%H:%M')] *)
Definition strftime_HM (ts : datetime) : string :=
  pad2 (hour ts) +:+ ":" +:+ pad2 (minute ts).

(** [ts.strftime('%Y-%m-%d %H:%M:%S')].  The C library writes the year of
    [%Y] as a plain decimal number, without leading zeros. *)
Definition strftime_full (ts : datetime) : string :=
  pretty (year ts) +:+ "-" +:+ pad2 (month ts) +:+ "-" +:+ pad2 (day ts)
  +:+ " " +:+ pad2 (hour ts) +:+ ":" +:+ pad2 (minute ts) +:+ ":" +:+ pad2 (second ts).

(** ** NEON database interactions *)

Inductive connection : Type := Connection (dsn : string).
Inductive cursor : Type := Cursor.

Record dataset `{Numeric} : Type := {
  ds_label : string;
  ds_data : list pyfloat;
  ds_borderColor : string;
  ds_tension : Q
}.

Record chart `{Numeric} : Type := {
  chart_labels : list string;
  chart_datasets : list dataset
}.

Record log_entry : Type := {
  log_timestamp : string;
  log_image_path : string
}.

(** The body of the loop of [fetch_intrusion_logs] over [results]. *)
Definition intrusion_entry (row : datetime * option string) : log_entry :=
  let '(ts, path) := row in
  {| log_timestamp := strftime_full ts;
     log_image_path := Py.or_else path "No image recorded" |}.

Section Neon.
Context `{Numeric} (E : environment).

Definition psycopg2_connect (dsn : string) : io connection := λ t,
  match db_connect_error (neon E) with
  | Some detail => (Raises (Exn Psycopg2Error detail), t ++ [DbConnect dsn false])
  | None => (Returns (Connection dsn), t ++ [DbConnect dsn true])
  end.

Definition conn_cursor (conn : connection) : io cursor := λ t,
  match db_cursor_error (neon E) with
  | Some detail => (Raises (Exn Psycopg2Error detail), t ++ [DbCursor])
  | None => (Returns Cursor, t ++ [DbCursor])
  end.

Definition conn_close (conn : connection) : io unit := emit DbClose.

(** [cursor.execute(query, (date,))]: the statement fails when the store
    says so, when the bound text is no date, or when the selected column
    does not exist.  What the server makes of the statement itself is part
    of [db_execute_error]: against PostgreSQL the intrusion statement is
    refused for every declaration of [motion]
    ([intrusion_statement_error]), so there [db_execute_error] is never
    [None] for it; the branch that lets it through describes a store that
    compares a flag with both constants. *)
Definition cursor_execute (cur : cursor) (stmt : statement) (param : string)
    : io unit := λ t,
  let t' := t ++ [DbExecute stmt param] in
  match db_execute_error (neon E) with
  | Some detail => (Raises (Exn Psycopg2Error detail), t')
  | None =>
      match db_date_of_text (neon E) param with
      | None =>
          (Raises (Exn Psycopg2Error
                     ("invalid input syntax for type date: " +:+ param)), t')
      | Some _ =>
          match stmt with
          | SelectHistory db_column =>
              match numeric_column db_column with
              | Some _ => (Returns (), t')
              | None =>
                  (Raises (Exn Psycopg2Error
                             ("column " +:+ db_column +:+ " does not exist")), t')
              end
          | SelectIntrusions => (Returns (), t')
          end
      end
  end.

(** [cursor.fetchall()] after the history statement. *)
Definition fetchall_history (cur : cursor) (db_column param : string)
    : io (list (datetime * option number)) :=
  emit DbFetchAll;;
  mret (match numeric_column db_column, db_date_of_text (neon E) param with
        | Some col, Some d => history_rows col d (sensor_data (neon E))
        | _, _ => []
        end).

(** [cursor.fetchall()] after the intrusion statement. *)
Definition fetchall_intrusions (cur : cursor) (param : string)
    : io (list (datetime * option string)) :=
  emit DbFetchAll;;
  mret (match db_date_of_text (neon E) param with
        | Some d => intrusion_rows d (sensor_data (neon E))
        | None => []
        end).

(** [float(x)] on a column value. *)
Definition py_float (x : option number) : io pyfloat :=
  match x with
  | Some v => mret (float_of v)
  | None =>
      raise (Exn TypeError
               "float() argument must be a string or a real number, not 'NoneType'")
  end.

Definition connect_to_neon : io (option connection) :=
  try_except
    (conn ← psycopg2_connect (NEON_DATABASE_URL E); mret (Some conn))
    Psycopg2Error
    (λ e, print ("DATABASE CONNECTION ERROR: " +:+ exn_msg e);; mret None).

Definition fetch_historical_data (date sensor : string)
    : io (option chart * option string) :=
  conn ← connect_to_neon;
  match conn with
  | None => mret (None, Some "Failed to connect to the cloud database.")
  | Some conn =>
      try_finally
        (try_except
           (cursor ← conn_cursor conn;
            match DB_SENSOR_MAP !! sensor with
            | None => mret (None, Some "Invalid sensor requested.")
            | Some db_column =>
                cursor_execute cursor (SelectHistory db_column) date;;
                results ← fetchall_history cursor db_column date;
                let labels := (λ row, strftime_HM row.1) <$> results in
                values ← mapM (λ row, py_float row.2) results;
                mret (Some {| chart_labels := labels;
                              chart_datasets := [
                                {| ds_label := Py.capitalize sensor;
                                   ds_data := values;
                                   ds_borderColor := "#3498db";
                                   ds_tension := (3 # 10)%Q |} ] |},
                      None)
            end)
           Psycopg2Error
           (λ e,
              print ("Database query error: " +:+ exn_msg e);;
              mret (None, Some ("Database Query Error: " +:+ exn_msg e))))
        (conn_close conn)
  end.

(** The loop that fills [logs] runs after [fetchall] and raises nothing, so
    [logs] is still empty whenever the [except] clause is entered. *)
Definition fetch_intrusion_logs (date : string)
    : io (list log_entry * option string) :=
  conn ← connect_to_neon;
  match conn with
  | None => mret ([], Some "Failed to connect to the cloud database.")
  | Some conn =>
      try_finally
        (try_except
           (cursor ← conn_cursor conn;
            cursor_execute cursor SelectIntrusions date;;
            results ← fetchall_intrusions cursor date;
            let logs := intrusion_entry <$> results in
            mret (logs, None))
           Psycopg2Error
           (λ e,
              print ("Database query error: " +:+ exn_msg e);;
              mret ([], Some ("Database Query Error: " +:+ exn_msg e))))
        (conn_close conn)
  end.

End Neon.

(** ** Request handlers that dispatch control commands *)

(** The JSON body and the status code a handler of the API answers with. *)
Record api_response : Type := {
  resp_success : bool;
  resp_message : string;
  resp_status : nat
}.

(** The values [manage_security] hands to its template. *)
Record security_page : Type := {
  status_msg : option string;
  intrusion_logs : list log_entry;
  log_error : option string;
  selected_log_date : option string
}.

Definition feed_key_map : gmap string string :=
  list_to_map [
    ("light", "ctrl_light");
    ("lcd_text", "ctrl_lcd_text");
    ("mode", "ctrl_mode")
  ].

Section Routes.
Context `{Numeric} (E : environment).

(** The tail of [control_device_api], from the call of
    [send_control_command] on. *)
Definition control_dispatch (device feed_key control_value : string)
    : io api_response :=
  '(success, msg) ← send_control_command E feed_key control_value;
  if success : bool then
    mret {| resp_success := true;
            resp_message :=
              if String.eqb device "lcd_text"
              then Py.capitalize (Py.replace "_" " " device)
                   +:+ " set to '" +:+ control_value +:+ "'"
              else Py.capitalize device +:+ " set to " +:+ control_value;
            resp_status := 200 |}
  else
    mret {| resp_success := false;
            resp_message := "Failed to control " +:+ device +:+ ": " +:+ msg;
            resp_status := 500 |}.

(** [POST /api/control/<device>/<value>] *)
Definition control_device_api (device value : string) : io api_response :=
  match feed_key_map !! device with
  | Some feed_key =>
      if Py.truthy feed_key then
        if String.eqb device "lcd_text" then
          let MAX_LENGTH := 32%nat in
          if (MAX_LENGTH <? Py.len value)%nat then
            mret {| resp_success := false;
                    resp_message := "Text must be " +:+ pretty MAX_LENGTH
                                    +:+ " characters or less.";
                    resp_status := 400 |}
          else control_dispatch device feed_key value
        else if String.eqb device "mode" then
          control_dispatch device feed_key
            (if String.eqb (Py.lower value) "on" then "ARMED" else "DISARMED")
        else
          control_dispatch device feed_key (Py.upper value)
      else
        mret {| resp_success := false; resp_message := "Invalid device";
                resp_status := 400 |}
  | None =>
      mret {| resp_success := false; resp_message := "Invalid device";
              resp_status := 400 |}
  end.

(** [GET|POST /manage-security]; [form] is [request.form]. *)
Definition manage_security (method : http_method) (form : gmap string string)
    : io security_page :=
  match method with
  | POST =>
      let action := form !! "action" in
      if decide (action = Some "arm") then
        '(success, msg) ← send_control_command E "ctrl_mode" "ARMED";
        mret {| status_msg :=
                  Some ("Security System: "
                        +:+ (if success : bool then "ARMED" else "Failed to Arm")
                        +:+ ". Message: " +:+ msg);
                intrusion_logs := []; log_error := None;
                selected_log_date := None |}
      else if decide (action = Some "disarm") then
        '(success, msg) ← send_control_command E "ctrl_mode" "DISARMED";
        mret {| status_msg :=
                  Some ("Security System: "
                        +:+ (if success : bool then "DISARMED" else "Failed to Disarm")
                        +:+ ". Message: " +:+ msg);
                intrusion_logs := []; log_error := None;
                selected_log_date := None |}
      else if decide (action = Some "get_logs") then
        let selected := form !! "log_date" in
        match selected with
        | Some log_date =>
            if Py.truthy log_date then
              '(logs, err) ← fetch_intrusion_logs E log_date;
              mret {| status_msg := None; intrusion_logs := logs;
                      log_error := err; selected_log_date := selected |}
            else
              mret {| status_msg := None; intrusion_logs := [];
                      log_error := Some "Please select a date to fetch logs.";
                      selected_log_date := selected |}
        | None =>
            mret {| status_msg := None; intrusion_logs := [];
                    log_error := Some "Please select a date to fetch logs.";
                    selected_log_date := selected |}
        end
      else
        mret {| status_msg := None; intrusion_logs := []; log_error := None;
                selected_log_date := None |}
  | GET =>
      mret {| status_msg := None; intrusion_logs := []; log_error := None;
              selected_log_date := None |}
  end.

End Routes.

(** ** Reading a trace *)

(** The requests that went out, in order. *)
Definition network_calls (t : trace) : list http_request :=
  omap (λ ev, match ev with NetCall rq => Some rq | _ => None end) t.

(** Connections opened and connections released. *)
Definition is_open (ev : event) : bool :=
  match ev with DbConnect _ true => true | _ => false end.

Definition is_close (ev : event) : bool :=
  match ev with DbClose => true | _ => false end.

Definition connections_opened (t : trace) : nat := length (filter is_open t).

Definition connections_closed (t : trace) : nat := length (filter is_close t).

(** Every call made on the database driver. *)
Definition is_database_call (ev : event) : bool :=
  match ev with
  | DbConnect _ _ | DbCursor | DbExecute _ _ | DbFetchAll | DbClose => true
  | NetCall _ | Stdout _ => false
  end.

Definition database_calls (t : trace) : list event := filter is_database_call t.

(** ** Requests the code builds, named for the statements below *)

Section RequestsBuilt.
Context `{Numeric} (E : environment).

(** The GET of [fetch_live_data] for one feed. *)
Definition live_request (feed_name : string) : http_request :=
  HttpRequest GET (last_data_url E feed_name) (AIO_HEADERS E) None 5.

(** The POST of [send_control_command] for one feed and one value. *)
Definition control_request (feed_name value : string) : http_request :=
  HttpRequest POST (data_url E feed_name) (AIO_HEADERS E)
    (Some (JObj [("value", JStr value)])) 5.

End RequestsBuilt.

(** What one exchange contributes to the dictionary of [fetch_live_data]:
    the sentinel ["Error"] when the exchange fails, the [value] field of the
    body or the sentinel ["N/A"] when the body is an object, and nothing
    ([None]) when the body is JSON of another shape. *)
Definition entry_for (o : http_outcome) : option json :=
  match o with
  | TransportFailure _ => Some (JStr "Error")
  | Response st _ body =>
      if is_error_status st then Some (JStr "Error")
      else match body with
           | NotJson _ => Some (JStr "Error")
           | Json (JObj fields) =>
               Some (default (JStr "N/A") (fields_get "value" fields))
           | Json _ => None
           end
  end.

(** The feed service answers every request either with a failure, an error
    status, a body that is not JSON, or a JSON object. *)
Definition answers_with_objects `{Numeric} (E : environment) : Prop :=
  ∀ t rq st reason j,
    adafruit_io E t rq = Response st reason (Json j) →
    is_error_status st = false →
    ∃ fields, j = JObj fields.

(** ** Concrete collaborators, to run the model on *)

Module Sample.

(** Columns of type [integer], read into Python [int] and coerced to the
    rational the resulting float stands for. *)
#[export] Instance integer_columns : Numeric :=
  {| number := Z; pyfloat := Q; float_of := inject_Z |}.

Definition at_time (h m s : nat) : datetime := DateTime 2024 1 5 h m s 0.

Definition read_date (text : string) : option date :=
  if String.eqb text "2024-01-05" then Some (2024, 1, 5)%nat else None.

Definition table : list row := [
  Row (Some (at_time 10 5 0)) (Some 21%Z) (Some 40%Z) (MotionBool true) (Some "a.jpg");
  Row (Some (at_time 9 5 0)) (Some 20%Z) (Some 38%Z) (MotionInt 1) (Some "b.jpg");
  Row (Some (DateTime 2024 1 6 1 1 1 0)) (Some 19%Z) None (MotionInt 1) (Some "c.jpg");
  Row (Some (at_time 11 59 7)) (Some 23%Z) (Some 41%Z) (MotionBool false) None
].

Definition store (rows : list row) : database :=
  {| db_connect_error := None; db_cursor_error := None;
     db_execute_error := None; db_date_of_text := read_date;
     sensor_data := rows |}.

Definition unreachable_store : database :=
  {| db_connect_error := Some "could not connect to server";
     db_cursor_error := None; db_execute_error := None;
     db_date_of_text := read_date; sensor_data := table |}.

Definition reading (value : string) : http_outcome :=
  Response 200 "OK" (Json (JObj [("id", JStr "0F"); ("value", JStr value)])).

(** Every feed answers with a reading. *)
Definition healthy (t : trace) (rq : http_request) : http_outcome :=
  reading "21.5".

(** The humidity feed times out; the others answer. *)
Definition humidity_times_out (t : trace) (rq : http_request) : http_outcome :=
  if String.eqb (rq_url rq)
       "https://io.adafruit.com/api/v2/alice/feeds/home/humidity/data/last"
  then TransportFailure "Read timed out. (read timeout=5)"
  else reading "21.5".

(** The temperature feed answers 200 with a JSON array. *)
Definition temperature_sends_array (t : trace) (rq : http_request) : http_outcome :=
  if String.eqb (rq_url rq)
       "https://io.adafruit.com/api/v2/alice/feeds/home/temperature/data/last"
  then Response 200 "OK" (Json (JArr []))
  else reading "21.5".

(** Every request is refused with status 503. *)
Definition unavailable (t : trace) (rq : http_request) : http_outcome :=
  Response 503 "Service Unavailable" (NotJson "Expecting value: line 1 column 1 (char 0)").

Definition env (service : trace → http_request → http_outcome) (db : database)
    : environment :=
  {| AIO_USERNAME := "alice"; AIO_KEY := "aio_key";
     NEON_DATABASE_URL := "postgresql://neon/db";
     adafruit_io := service; neon := db |}.

End Sample.

(** ** The remaining routes that reach a collaborator *)

(** The values [environmental_data] hands to its template. *)
Record environmental_page : Type := {
  chart_data_json : option string;
  env_error : option string;
  selected_date : option string;
  selected_sensor : option string
}.

Section Pages.
Context `{Numeric} (jsonify_text : chart → string) (E : environment).

(** [GET /]: the dictionary of [fetch_live_data] goes to the template as
    [live_data]. *)
Definition home : io (gmap string json) :=
  live_data ← fetch_live_data E;
  mret live_data.

(** [GET|POST /environmental]; [form] is [request.form] and [jsonify_text]
    stands for [jsonify(chart_data).get_data(as_text=True)].  A chart is a
    dictionary with two keys, hence truthy. *)
Definition environmental_data (method : http_method) (form : gmap string string)
    : io environmental_page :=
  match method with
  | POST =>
      let date := form !! "date" in
      let sensor := form !! "sensor" in
      match date, sensor with
      | Some d, Some s =>
          if Py.truthy d && Py.truthy s then
            '(chart_data, error) ← fetch_historical_data E d s;
            mret {| chart_data_json := jsonify_text <$> chart_data;
                    env_error := error;
                    selected_date := date; selected_sensor := sensor |}
          else
            mret {| chart_data_json := None; env_error := None;
                    selected_date := date; selected_sensor := sensor |}
      | _, _ =>
          mret {| chart_data_json := None; env_error := None;
                  selected_date := date; selected_sensor := sensor |}
      end
  | GET =>
      mret {| chart_data_json := None; env_error := None;
              selected_date := None; selected_sensor := None |}
  end.

End Pages.

(** ** Outcomes of an exchange, named for the statements below *)

(** The text of the [RequestException] that an exchange raises in
    [send_control_command], from [requests.post] or from [raise_for_status];
    [None] when neither raises. *)
Definition failure_detail (rq : http_request) (o : http_outcome) : option string :=
  match o with
  | TransportFailure detail => Some detail
  | Response st reason body =>
      if is_error_status st
      then Some (http_error_msg {| status_code := st; reason_phrase := reason;
                                   url := rq_url rq; content := body |})
      else None
  end.

(** The three requests of [fetch_live_data], in the order of the loop. *)
Definition live_requests `{Numeric} (E : environment) : list http_request :=
  [live_request E "home/temperature"; live_request E "home/humidity";
   live_request E "home/motion"].

(** ** More concrete collaborators *)

Module Fixtures.

#[local] Existing Instance Sample.integer_columns.

(** A day with a reading whose humidity is NULL. *)
Definition table_with_null : list (@row Sample.integer_columns) := [
  Row (Some (Sample.at_time 8 0 0)) (Some 19%Z) (Some 40%Z) (MotionBool false) None;
  Row (Some (Sample.at_time 8 30 0)) (Some 20%Z) None (MotionBool false) None
].

(** A store that rejects every statement. *)
Definition failing_store : @database Sample.integer_columns :=
  {| db_connect_error := None; db_cursor_error := None;
     db_execute_error := Some "relation sensor_data does not exist";
     db_date_of_text := Sample.read_date; sensor_data := Sample.table |}.

(** A rendering of charts that only counts the points. *)
Definition render (c : @chart Sample.integer_columns) : string :=
  "chart with " +:+ pretty (length (chart_labels c)) +:+ " points".

Definition healthy : @environment Sample.integer_columns :=
  Sample.env Sample.healthy (Sample.store Sample.table).

Definition down : @environment Sample.integer_columns :=
  Sample.env Sample.unavailable Sample.unreachable_store.

(** A morning of readings in columns of type [double precision], with a
    boolean [motion] column. *)
Definition readings : list (@row double_precision) := [
  @Row double_precision (Some (Sample.at_time 10 5 0))
    (Some 21%float) (Some 40.5%float) (MotionBool true) (Some "a.jpg");
  @Row double_precision (Some (Sample.at_time 9 5 0))
    (Some 20.5%float) (Some 38%float) (MotionBool true) (Some "b.jpg");
  @Row double_precision (Some (DateTime 2024 1 6 1 1 1 0))
    (Some 19%float) None (MotionBool false) None;
  @Row double_precision (Some (Sample.at_time 11 59 7))
    (Some 23.25%float) (Some 41%float) (MotionBool false) None
].

(** The store while a chart is requested: the history statement is served. *)
Definition charting : @environment double_precision :=
  {| AIO_USERNAME := "alice"; AIO_KEY := "aio_key";
     NEON_DATABASE_URL := "postgresql://neon/db";
     adafruit_io := Sample.healthy;
     neon := {| db_connect_error := None; db_cursor_error := None;
                db_execute_error := None;
                db_date_of_text := Sample.read_date;
                sensor_data := readings |} |}.

(** The same store while the intrusion log is requested: PostgreSQL refuses
    the statement, [motion] being a boolean column. *)
Definition logging : @environment double_precision :=
  {| AIO_USERNAME := "alice"; AIO_KEY := "aio_key";
     NEON_DATABASE_URL := "postgresql://neon/db";
     adafruit_io := Sample.healthy;
     neon := {| db_connect_error := None; db_cursor_error := None;
                db_execute_error := intrusion_statement_error SqlBoolean;
                db_date_of_text := Sample.read_date;
                sensor_data := readings |} |}.

(** The feed service gives every request the final answer 300: a redirection
    status without a location to follow. *)
Definition multiple_choices (t : trace) (rq : http_request) : http_outcome :=
  Response 300 "Multiple Choices" (Json (JObj [])).

(** The answer of the control API for the light while the feed service is
    unavailable. *)
Definition light_failure : api_response :=
  {| resp_success := false;
     resp_message :=
       "Failed to control light: Error: 503 Server Error: Service Unavailable for url: https://io.adafruit.com/api/v2/alice/feeds/home/control/light/data";
     resp_status := 500 |}.


(** The chart of the temperatures of the sample table. *)
Definition temperature_chart : chart :=
  {| chart_labels := ["09:05"; "10:05"; "11:59"];
     chart_datasets := [
       {| ds_label := "Temperature";
          ds_data := @float_of Sample.integer_columns <$> [20; 21; 23]%Z;
          ds_borderColor := "#3498db"; ds_tension := (3 # 10)%Q |} ] |}.

End Fixtures.

(** * Properties *)

(** ** The configuration tables *)

Lemma FEEDS_entries k f :
  FEEDS !! k = Some f →
  (k, f) ∈ [("temperature", "home/temperature"); ("humidity", "home/humidity");
            ("motion", "home/motion"); ("ctrl_light", "home/control/light");
            ("ctrl_lcd_text", "home/control/lcd_message");
            ("ctrl_mode", "home/control/mode");
            ("last_image", "home/last_image_ts")].
Proof. intros Hk. by apply elem_of_list_to_map_2 in Hk. Qed.

Lemma FEEDS_truthy k f : FEEDS !! k = Some f → Py.truthy f = true.
Proof.
  intros Hk. apply FEEDS_entries in Hk.
  repeat (apply elem_of_cons in Hk as [[= -> ->]|Hk]; [reflexivity|]).
  by apply elem_of_nil in Hk.
Qed.

Lemma FEEDS_temperature : FEEDS !! "temperature" = Some "home/temperature".
Proof. reflexivity. Qed.

Lemma FEEDS_humidity : FEEDS !! "humidity" = Some "home/humidity".
Proof. reflexivity. Qed.

Lemma FEEDS_motion : FEEDS !! "motion" = Some "home/motion".
Proof. reflexivity. Qed.

Lemma FEEDS_ctrl_mode : FEEDS !! "ctrl_mode" = Some "home/control/mode".
Proof. reflexivity. Qed.

Lemma FEEDS_ctrl_light : FEEDS !! "ctrl_light" = Some "home/control/light".
Proof. reflexivity. Qed.

Lemma FEEDS_ctrl_lcd_text : FEEDS !! "ctrl_lcd_text" = Some "home/control/lcd_message".
Proof. reflexivity. Qed.

(** ** Traces *)

Lemma network_calls_app t1 t2 :
  network_calls (t1 ++ t2) = network_calls t1 ++ network_calls t2.
Proof. apply omap_app. Qed.

Lemma connections_opened_app t1 t2 :
  connections_opened (t1 ++ t2) = connections_opened t1 + connections_opened t2.
Proof. unfold connections_opened. by rewrite filter_app, length_app. Qed.

Lemma connections_closed_app t1 t2 :
  connections_closed (t1 ++ t2) = connections_closed t1 + connections_closed t2.
Proof. unfold connections_closed. by rewrite filter_app, length_app. Qed.

(** ** [send_control_command] *)

Section SendControl.
Context `{Numeric} (E : environment).

(** The three ways a resolved command can go, as one equation. *)
Lemma send_control_command_resolved feed_key feed_name value t :
  FEEDS !! feed_key = Some feed_name →
  send_control_command E feed_key value t =
    let rq := control_request E feed_name value in
    match adafruit_io E t rq with
    | TransportFailure detail =>
        (Returns (false, "Error: " +:+ detail),
         t ++ [NetCall rq] ++
           [Stdout ("Error sending control command to " +:+ feed_key +:+ ": "
                    +:+ detail)])
    | Response st reason body =>
        if is_error_status st then
          let detail := http_error_msg
                          {| status_code := st; reason_phrase := reason;
                             url := rq_url rq; content := body |} in
          (Returns (false, "Error: " +:+ detail),
           t ++ [NetCall rq] ++
             [Stdout ("Error sending control command to " +:+ feed_key +:+ ": "
                      +:+ detail)])
        else (Returns (true, "Success"), t ++ [NetCall rq])
    end.
Proof.
  intros Hk. unfold send_control_command. rewrite Hk, (FEEDS_truthy _ _ Hk).
  unfold try_except, mbind, io_bind, requests_post, send, control_request. simpl.
  destruct (adafruit_io E t _) as [detail|st reason body]; simpl.
  - unfold print, emit. simpl. by rewrite <- app_assoc.
  - unfold raise_for_status. simpl. destruct (is_error_status st); simpl.
    + unfold print, emit. simpl. by rewrite <- app_assoc.
    + reflexivity.
Qed.

(** A resolved command sends exactly one POST. *)
Lemma send_control_command_calls feed_key feed_name value t :
  FEEDS !! feed_key = Some feed_name →
  network_calls (send_control_command E feed_key value t).2
  = network_calls t ++ [control_request E feed_name value].
Proof.
  intros Hk. rewrite (send_control_command_resolved _ _ _ _ Hk). cbv zeta.
  destruct (adafruit_io E t _) as [detail|st reason body];
    [|destruct (is_error_status st)];
    simpl; rewrite !network_calls_app; simpl; by rewrite ?app_nil_r.
Qed.

(** C6 (as the code has it). [send_control_command] with a feed key that
    [FEEDS] does not resolve returns [(False, "Invalid feed key")] and leaves
    the trace as it was: nothing reaches the network.  With a key that
    resolves, exactly one request goes out, the POST of the value to the
    feed's data URL with the key header and a timeout of 5 seconds (a single
    attempt).  The result is [(False, "Error: ...")] when the transport fails
    and when the final status is 4xx or 5xx; it is [(True, "Success")] for
    every other final status, the 2xx ones and also those below 200, from
    300 to 399 and from 600 on. *)
Theorem send_control_command_outcomes feed_key value t :
  (FEEDS !! feed_key = None →
     send_control_command E feed_key value t
     = (Returns (false, "Invalid feed key"), t))
  ∧ (∀ feed_name, FEEDS !! feed_key = Some feed_name →
       let rq :=
         HttpRequest POST
           ("https://io.adafruit.com/api/v2/" +:+ AIO_USERNAME E +:+ "/feeds/"
            +:+ feed_name +:+ "/data")
           [("X-AIO-Key", AIO_KEY E)]
           (Some (JObj [("value", JStr value)])) 5 in
       let run := send_control_command E feed_key value t in
       network_calls run.2 = network_calls t ++ [rq]
       ∧ (∀ st reason body,
            adafruit_io E t rq = Response st reason body →
            (st < 400 ∨ 600 ≤ st)%nat →
            run.1 = Returns (true, "Success"))
       ∧ (∀ st reason body,
            adafruit_io E t rq = Response st reason body →
            (400 ≤ st < 600)%nat →
            ∃ detail, run.1 = Returns (false, "Error: " +:+ detail))
       ∧ (∀ detail,
            adafruit_io E t rq = TransportFailure detail →
            run.1 = Returns (false, "Error: " +:+ detail))).
Proof.
  split.
  - intros Hk. unfold send_control_command. by rewrite Hk.
  - intros feed_name Hk rq run. subst run.
    change rq with (control_request E feed_name value).
    split; [by apply send_control_command_calls|].
    rewrite (send_control_command_resolved _ _ _ _ Hk). cbv zeta.
    repeat split.
    + intros st reason body -> Hst.
      assert (is_error_status st = false) as ->; [|done].
      unfold is_error_status. apply andb_false_iff.
      destruct Hst; [left; apply Nat.leb_gt|right; apply Nat.ltb_ge]; lia.
    + intros st reason body -> [Hlo Hhi].
      assert (is_error_status st = true) as ->; [|eauto].
      unfold is_error_status. apply andb_true_iff.
      split; [by apply Nat.leb_le|by apply Nat.ltb_lt].
    + by intros detail ->.
Qed.

End SendControl.

(** The command is refused without a network call, and a 503 is reported
    after one POST. *)
Lemma send_control_command_outcomes_witness :
  send_control_command (Sample.env Sample.healthy (Sample.store Sample.table))
    "ctrl_fan" "ON" []
  = (Returns (false, "Invalid feed key"), [])
  ∧ ∃ detail,
      (send_control_command (Sample.env Sample.unavailable (Sample.store Sample.table))
         "ctrl_light" "ON" []).1
      = Returns (false, "Error: " +:+ detail).
Proof.
  split.
  - apply (send_control_command_outcomes
             (Sample.env Sample.healthy (Sample.store Sample.table))
             "ctrl_fan" "ON" []).
    reflexivity.
  - eapply (send_control_command_outcomes
              (Sample.env Sample.unavailable (Sample.store Sample.table))
              "ctrl_light" "ON" []); [reflexivity|reflexivity|lia].
Defined.

(** C6 (as stated, refuted). The light command is posted to a feed service
    whose final answer is 300 Multiple Choices.  The status is not in the
    2xx range, yet the result is [(True, "Success")] and not a failure. *)
Lemma final_redirection_status_is_success :
  Fixtures.multiple_choices []
    (control_request (Sample.env Fixtures.multiple_choices (Sample.store Sample.table))
       "home/control/light" "ON")
  = Response 300 "Multiple Choices" (Json (JObj []))
  ∧ ¬ (200 ≤ 300 < 300)%nat
  ∧ send_control_command
      (Sample.env Fixtures.multiple_choices (Sample.store Sample.table))
      "ctrl_light" "ON" []
    = (Returns (true, "Success"),
       [NetCall
          (HttpRequest POST
             "https://io.adafruit.com/api/v2/alice/feeds/home/control/light/data"
             [("X-AIO-Key", "aio_key")]
             (Some (JObj [("value", JStr "ON")])) 5)]).
Proof. split; [reflexivity|]. split; [lia|reflexivity]. Qed.

(** A final response with a 3xx status is no error for [raise_for_status]. *)
Example is_error_status_300 : is_error_status 300 = false.
Proof. reflexivity. Qed.

(** ** [fetch_live_data] *)

Section FetchLive.
Context `{Numeric} (E : environment).

Lemma fetch_live_step_unresolved data k t :
  FEEDS !! k = None → fetch_live_step E data k t = (Returns data, t).
Proof. intros Hk. unfold fetch_live_step. by rewrite Hk. Qed.

(** One iteration for a key that resolves: the entry it writes. *)
Lemma fetch_live_step_returns data k f v t :
  FEEDS !! k = Some f →
  entry_for (adafruit_io E t (live_request E f)) = Some v →
  ∃ log,
    fetch_live_step E data k t
    = (Returns (<[k := v]> data), t ++ NetCall (live_request E f) :: log)
    ∧ network_calls log = [].
Proof.
  intros Hk Hv. unfold fetch_live_step. rewrite Hk, (FEEDS_truthy _ _ Hk).
  unfold try_except, mbind, io_bind, requests_get, send.
  fold (live_request E f).
  destruct (adafruit_io E t (live_request E f)) as [detail|st reason body];
    simpl in *.
  - injection Hv as <-. eexists [_]. split; [by rewrite <- app_assoc|done].
  - unfold raise_for_status. simpl.
    destruct (is_error_status st); simpl.
    { injection Hv as <-. eexists [_]. split; [by rewrite <- app_assoc|done]. }
    unfold response_json. simpl. destruct body as [detail|j]; simpl.
    { injection Hv as <-. eexists [_]. split; [by rewrite <- app_assoc|done]. }
    destruct j; try discriminate. injection Hv as <-.
    exists []. split; [reflexivity|done].
Qed.

(** One iteration for a key that resolves and whose response carries JSON
    that is no object: the [AttributeError] of [.get] escapes. *)
Lemma fetch_live_step_raises data k f st reason j t :
  FEEDS !! k = Some f →
  adafruit_io E t (live_request E f) = Response st reason (Json j) →
  is_error_status st = false →
  (∀ fields, j ≠ JObj fields) →
  fetch_live_step E data k t
  = (Raises (Exn AttributeError
               ("'" +:+ type_name j +:+ "' object has no attribute 'get'")),
     t ++ [NetCall (live_request E f)]).
Proof.
  intros Hk Hrq Hst Hj. unfold fetch_live_step.
  rewrite Hk, (FEEDS_truthy _ _ Hk).
  unfold try_except, mbind, io_bind, requests_get, send.
  fold (live_request E f). rewrite Hrq. simpl.
  unfold raise_for_status. simpl. rewrite Hst. simpl.
  destruct j; try reflexivity. by destruct (Hj fields).
Qed.

(** C1 (the code departs from it). When the first feed, temperature, answers
    with a success status and a JSON body that is not an object (an array,
    a string, a number, [null]), the [AttributeError] raised by [.get] is
    not a [RequestException]: it leaves the loop and [fetch_live_data]
    raises, with no entry returned for any key and the remaining feeds
    never asked. *)
Theorem fetch_live_data_aborts_on_non_object_body t st reason j :
  adafruit_io E t (live_request E "home/temperature")
    = Response st reason (Json j) →
  is_error_status st = false →
  (∀ fields, j ≠ JObj fields) →
  fetch_live_data E t
  = (Raises (Exn AttributeError
               ("'" +:+ type_name j +:+ "' object has no attribute 'get'")),
     t ++ [NetCall (live_request E "home/temperature")]).
Proof.
  intros Hrq Hst Hj. unfold fetch_live_data. simpl.
  unfold mbind, io_bind.
  by rewrite (fetch_live_step_raises ∅ _ _ st reason j t
                FEEDS_temperature Hrq Hst Hj).
Qed.

Lemma entry_for_defined t rq :
  answers_with_objects E → is_Some (entry_for (adafruit_io E t rq)).
Proof.
  intros Hobj. destruct (adafruit_io E t rq) as [detail|st reason body] eqn:Hrq;
    simpl; [done|].
  destruct (is_error_status st) eqn:Hst; [done|].
  destruct body as [detail|j]; [done|].
  destruct (Hobj _ _ _ _ _ Hrq Hst) as [fields ->]. done.
Qed.

(** X24. Against such a service [fetch_live_data] returns exactly three entries,
    one per key, and the entry of a key is decided by the exchange for that
    key alone: ["Error"] for a transport failure, an error status or a body
    that is not JSON, the [value] field or ["N/A"] otherwise. *)
Lemma fetch_live_data_one_entry_per_key t :
  answers_with_objects E →
  ∃ data t1 t2 t3,
    fetch_live_data E t = (Returns data, t3)
    ∧ dom data = {["temperature"; "humidity"; "motion"]}
    ∧ size data = 3
    ∧ data !! "temperature"
      = entry_for (adafruit_io E t (live_request E "home/temperature"))
    ∧ data !! "humidity"
      = entry_for (adafruit_io E t1 (live_request E "home/humidity"))
    ∧ data !! "motion"
      = entry_for (adafruit_io E t2 (live_request E "home/motion")).
Proof.
  intros Hobj. unfold fetch_live_data. simpl.
  unfold mbind, io_bind.
  destruct (entry_for_defined t (live_request E "home/temperature") Hobj)
    as [v1 Hv1].
  destruct (fetch_live_step_returns ∅ _ _ v1 t FEEDS_temperature Hv1)
    as (log1 & -> & _).
  set (t1 := t ++ _ :: log1).
  destruct (entry_for_defined t1 (live_request E "home/humidity") Hobj)
    as [v2 Hv2].
  destruct (fetch_live_step_returns (<["temperature" := v1]> ∅) _ _ v2 t1
              FEEDS_humidity Hv2) as (log2 & -> & _).
  set (t2 := t1 ++ _ :: log2).
  destruct (entry_for_defined t2 (live_request E "home/motion") Hobj)
    as [v3 Hv3].
  destruct (fetch_live_step_returns
              (<["humidity" := v2]> (<["temperature" := v1]> ∅)) _ _ v3 t2
              FEEDS_motion Hv3) as (log3 & -> & _).
  exists (<["motion" := v3]> (<["humidity" := v2]> (<["temperature" := v1]> ∅))),
    t1, t2, (t2 ++ NetCall (live_request E "home/motion") :: log3).
  rewrite Hv1, Hv2, Hv3. split; [done|]. split; [|split; [|split; [|split]]].
  - rewrite !dom_insert_L, dom_empty_L. set_solver.
  - rewrite !map_size_insert_None, map_size_empty; [done|..];
      by rewrite ?lookup_insert_ne, ?lookup_empty by done.
  - by rewrite !lookup_insert_ne, lookup_insert_eq by done.
  - by rewrite lookup_insert_ne, lookup_insert_eq by done.
  - by rewrite lookup_insert_eq.
Qed.

(** The guard of the loop is never taken: each of the three keys that
    [fetch_live_data] iterates over resolves in [FEEDS]. *)
Lemma fetch_live_data_keys_resolve k :
  k ∈ ["temperature"; "humidity"; "motion"] → is_Some (FEEDS !! k).
Proof.
  intros Hk. repeat (apply elem_of_cons in Hk as [->|Hk]; [by eexists|]).
  by apply elem_of_nil in Hk.
Qed.

End FetchLive.

Lemma fetch_live_data_aborts_on_non_object_body_witness :
  fetch_live_data
    (Sample.env Sample.temperature_sends_array (Sample.store Sample.table)) []
  = (Raises (Exn AttributeError "'list' object has no attribute 'get'"),
     [NetCall (live_request
                 (Sample.env Sample.temperature_sends_array
                    (Sample.store Sample.table))
                 "home/temperature")]).
Proof.
  apply (fetch_live_data_aborts_on_non_object_body
           (Sample.env Sample.temperature_sends_array (Sample.store Sample.table))
           [] 200 "OK" (JArr [])).
  - reflexivity.
  - reflexivity.
  - intros fields. discriminate.
Defined.

(** One feed timing out: that entry is ["Error"], the others are readings. *)
Example fetch_live_data_one_feed_times_out :
  (fetch_live_data
     (Sample.env Sample.humidity_times_out (Sample.store Sample.table)) []).1
  = Returns (<["temperature" := JStr "21.5"]>
               (<["humidity" := JStr "Error"]>
                  (<["motion" := JStr "21.5"]> ∅))).
Proof. vm_compute. reflexivity. Qed.

(** ** The order of timestamps *)

Lemma lex_leb_total xs ys : lex_leb xs ys = true ∨ lex_leb ys xs = true.
Proof.
  revert ys. induction xs as [|x xs IH]; intros [|y ys]; simpl; auto.
  destruct (IH ys) as [->| ->];
    destruct (Nat.ltb_spec x y), (Nat.ltb_spec y x),
             (Nat.eqb_spec x y), (Nat.eqb_spec y x); simpl; auto; lia.
Qed.

Lemma lex_leb_trans xs ys zs :
  lex_leb xs ys = true → lex_leb ys zs = true → lex_leb xs zs = true.
Proof.
  revert ys zs. induction xs as [|x xs IH]; intros [|y ys] [|z zs]; simpl;
    try done.
  intros Hxy Hyz.
  destruct (Nat.ltb_spec x y), (Nat.ltb_spec y z), (Nat.ltb_spec x z),
           (Nat.eqb_spec x y), (Nat.eqb_spec y z), (Nat.eqb_spec x z);
    simpl in *; try done; try lia.
  by apply (IH ys).
Qed.

Lemma lex_leb_antisym xs ys :
  lex_leb xs ys = true → lex_leb ys xs = true → xs = ys.
Proof.
  revert ys. induction xs as [|x xs IH]; intros [|y ys]; simpl; try done.
  intros Hxy Hyx.
  destruct (Nat.ltb_spec x y), (Nat.ltb_spec y x),
           (Nat.eqb_spec x y), (Nat.eqb_spec y x);
    simpl in *; try done; try lia.
  subst. f_equal. by apply IH.
Qed.

Lemma ts_fields_inj a b : ts_fields a = ts_fields b → a = b.
Proof. destruct a, b. unfold ts_fields. simpl. by intros [= -> -> -> -> -> -> ->]. Qed.

Global Instance ts_le_total : Total ts_le.
Proof. intros a b. apply lex_leb_total. Qed.

Global Instance ts_le_trans : Transitive ts_le.
Proof. intros a b c. apply lex_leb_trans. Qed.

Global Instance ts_le_antisym : AntiSymm (=) ts_le.
Proof. intros a b Hab Hba. by apply ts_fields_inj, lex_leb_antisym. Qed.

Global Instance ts_ascending_total {V} : Total (@ts_ascending V).
Proof. intros a b. apply (total ts_le). Qed.

Global Instance ts_ascending_trans {V} : Transitive (@ts_ascending V).
Proof. intros a b c. apply (transitivity (R:=ts_le)). Qed.

Global Instance ts_descending_total {V} : Total (@ts_descending V).
Proof. intros a b. apply (total ts_le). Qed.

Global Instance ts_descending_trans {V} : Transitive (@ts_descending V).
Proof. intros a b c Hab Hbc. apply (transitivity (R:=ts_le) Hbc Hab). Qed.



(** ** What the two statements select *)

Section Selected.
Context `{Numeric}.

Lemma select_history_Some col d r ts v :
  select_history col d r = Some (ts, v) ↔
  ts_iso r = Some ts ∧ DATE ts = d ∧ col r = v.
Proof.
  unfold select_history. destruct (ts_iso r) as [ts'|].
  - case_bool_decide as Hd.
    + split; [by intros [= -> ->]|by intros ([= ->] & _ & ->)].
    + split; [done|]. intros ([= ->] & ? & _). done.
  - split; [done|]. by intros ([=] & _).
Qed.


Lemma history_rows_perm col d table :
  history_rows col d table ≡ₚ omap (select_history col d) table.
Proof. apply merge_sort_Permutation. Qed.

Lemma history_rows_elem col d table ts v :
  (ts, v) ∈ history_rows col d table ↔
  ∃ r, r ∈ table ∧ ts_iso r = Some ts ∧ DATE ts = d ∧ col r = v.
Proof.
  rewrite history_rows_perm, list_elem_of_omap.
  by setoid_rewrite select_history_Some.
Qed.

End Selected.

(** ** NEON database interactions *)

Ltac unfold_io :=
  unfold try_finally, try_except, mbind, io_bind, mret, io_ret, raise, print,
    emit in *.

Section Database.
Context `{Numeric} (E : environment).

Lemma connect_to_neon_run t :
  connect_to_neon E t =
    match db_connect_error (neon E) with
    | Some detail =>
        (Returns None,
         t ++ [DbConnect (NEON_DATABASE_URL E) false;
               Stdout ("DATABASE CONNECTION ERROR: " +:+ detail)])
    | None =>
        (Returns (Some (Connection (NEON_DATABASE_URL E))),
         t ++ [DbConnect (NEON_DATABASE_URL E) true])
    end.
Proof.
  unfold connect_to_neon, psycopg2_connect. unfold_io.
  destruct (db_connect_error (neon E)); simpl; [|done].
  by rewrite <- app_assoc.
Qed.

(** The list comprehension over [float(row[1])] touches no collaborator. *)
Lemma mapM_py_float_trace (results : list (datetime * option number)) t :
  (mapM (M:=io) (λ row, py_float row.2) results t).2 = t.
Proof.
  revert t. induction results as [|[ts [v|]] results IH]; intros t; simpl;
    [done| |done].
  unfold_io. simpl. specialize (IH t).
  by destruct (mapM (M:=io) _ results t) as [[vals|e] t'].
Qed.

Lemma mapM_py_float_values (results : list (datetime * option number)) vals t :
  results.*2 = Some <$> vals →
  mapM (M:=io) (λ row, py_float row.2) results t = (Returns (float_of <$> vals), t).
Proof.
  revert vals. induction results as [|[ts v] results IH]; intros [|x vals];
    simpl; try done.
  intros [= -> Hrest]. unfold_io. simpl. by rewrite (IH vals Hrest).
Qed.

(** What a call of [fetch_historical_data] adds to the trace: no request
    to the feed service, and as many connections opened as closed. *)
Lemma fetch_historical_data_trace date sensor t :
  ∃ evs, (fetch_historical_data E date sensor t).2 = t ++ evs
         ∧ connections_opened evs = connections_closed evs
         ∧ network_calls evs = [].
Proof.
  unfold fetch_historical_data.
  unfold mbind at 1. unfold io_bind at 1. rewrite connect_to_neon_run.
  destruct (db_connect_error (neon E)) as [detail|];
    [eexists; split; [reflexivity|split; reflexivity]|].
  unfold conn_cursor, conn_close, cursor_execute, fetchall_history.
  unfold_io.
  destruct (db_cursor_error (neon E)) as [detail|]; simpl;
    [eexists; split; [by rewrite <- !app_assoc|split; reflexivity]|].
  destruct (DB_SENSOR_MAP !! sensor) as [db_column|]; simpl;
    [|eexists; split; [by rewrite <- !app_assoc|split; reflexivity]].
  destruct (db_execute_error (neon E)) as [detail|]; simpl;
    [eexists; split; [by rewrite <- !app_assoc|split; reflexivity]|].
  destruct (db_date_of_text (neon E) date) as [d|]; simpl;
    [|eexists; split; [by rewrite <- !app_assoc|split; reflexivity]].
  destruct (numeric_column db_column) as [col|]; simpl;
    [|eexists; split; [by rewrite <- !app_assoc|split; reflexivity]].
  match goal with
  | |- context [@mapM io _ _ _ _ ?f ?l ?t0] =>
      pose proof (mapM_py_float_trace l t0) as Htrace;
      destruct (@mapM io _ _ _ _ f l t0) as [[vals|e] t']
  end; simpl in Htrace; subst; simpl.
  - eexists; split; [by rewrite <- !app_assoc|split; reflexivity].
  - destruct (decide (exn_cls e = Psycopg2Error)); simpl;
      eexists; (split; [by rewrite <- !app_assoc|split; reflexivity]).
Qed.

Lemma fetch_intrusion_logs_trace date t :
  ∃ evs, (fetch_intrusion_logs E date t).2 = t ++ evs
         ∧ connections_opened evs = connections_closed evs
         ∧ network_calls evs = [].
Proof.
  unfold fetch_intrusion_logs.
  unfold mbind at 1. unfold io_bind at 1. rewrite connect_to_neon_run.
  destruct (db_connect_error (neon E)) as [detail|];
    [eexists; split; [reflexivity|split; reflexivity]|].
  unfold conn_cursor, conn_close, cursor_execute, fetchall_intrusions.
  unfold_io.
  destruct (db_cursor_error (neon E)) as [detail|]; simpl;
    [eexists; split; [by rewrite <- !app_assoc|split; reflexivity]|].
  destruct (db_execute_error (neon E)) as [detail|]; simpl;
    [eexists; split; [by rewrite <- !app_assoc|split; reflexivity]|].
  destruct (db_date_of_text (neon E) date) as [d|]; simpl;
    eexists; (split; [by rewrite <- !app_assoc|split; reflexivity]).
Qed.

(** C2. On every path through [fetch_historical_data] and through
    [fetch_intrusion_logs] (result returned, query error caught, invalid
    sensor rejected, connection refused, exception of the mapping escaping)
    the events the call adds to the trace contain as many opened
    connections as closed ones. *)
Theorem connections_opened_are_closed date sensor t :
  (∃ evs, (fetch_historical_data E date sensor t).2 = t ++ evs
          ∧ connections_opened evs = connections_closed evs)
  ∧ (∃ evs, (fetch_intrusion_logs E date t).2 = t ++ evs
            ∧ connections_opened evs = connections_closed evs).
Proof.
  split.
  - destruct (fetch_historical_data_trace date sensor t) as (evs & ? & ? & _).
    by exists evs.
  - destruct (fetch_intrusion_logs_trace date t) as (evs & ? & ? & _).
    by exists evs.
Qed.

(** Every run for a sensor without a column, as one equation. *)
Lemma fetch_historical_data_invalid_sensor date sensor t :
  DB_SENSOR_MAP !! sensor = None →
  fetch_historical_data E date sensor t =
    let dsn := NEON_DATABASE_URL E in
    match db_connect_error (neon E), db_cursor_error (neon E) with
    | Some detail, _ =>
        (Returns (None, Some "Failed to connect to the cloud database."),
         t ++ [DbConnect dsn false;
               Stdout ("DATABASE CONNECTION ERROR: " +:+ detail)])
    | None, Some detail =>
        (Returns (None, Some ("Database Query Error: " +:+ detail)),
         t ++ [DbConnect dsn true; DbCursor;
               Stdout ("Database query error: " +:+ detail); DbClose])
    | None, None =>
        (Returns (None, Some "Invalid sensor requested."),
         t ++ [DbConnect dsn true; DbCursor; DbClose])
    end.
Proof.
  intros Hsensor. unfold fetch_historical_data.
  unfold mbind at 1. unfold io_bind at 1. rewrite connect_to_neon_run.
  unfold conn_cursor, conn_close. rewrite Hsensor.
  destruct (db_connect_error (neon E)) as [detail|]; [done|].
  unfold_io.
  destruct (db_cursor_error (neon E)) as [detail|]; simpl;
    by rewrite <- !app_assoc.
Qed.

(** C3 (as the code has it). For a sensor without a column in
    [DB_SENSOR_MAP] no statement is ever executed, but the check comes after
    the connection: when the store refuses the connection the result is the
    connection error; when it accepts, a connection is opened and a cursor
    created, the result is [(None, "Invalid sensor requested.")], and the
    connection is closed before returning. *)
Theorem invalid_sensor_rejected_after_connecting date sensor t :
  DB_SENSOR_MAP !! sensor = None →
  let run := fetch_historical_data E date sensor t in
  let dsn := NEON_DATABASE_URL E in
  (∀ detail, db_connect_error (neon E) = Some detail →
     run = (Returns (None, Some "Failed to connect to the cloud database."),
            t ++ [DbConnect dsn false;
                  Stdout ("DATABASE CONNECTION ERROR: " +:+ detail)]))
  ∧ (db_connect_error (neon E) = None → db_cursor_error (neon E) = None →
     run = (Returns (None, Some "Invalid sensor requested."),
            t ++ [DbConnect dsn true; DbCursor; DbClose]))
  ∧ (∀ stmt param, DbExecute stmt param ∈ run.2 → DbExecute stmt param ∈ t).
Proof.
  intros Hsensor run dsn. subst run dsn.
  rewrite (fetch_historical_data_invalid_sensor _ _ _ Hsensor). cbv zeta.
  split; [|split].
  - by intros detail ->.
  - by intros -> ->.
  - intros stmt param.
    destruct (db_connect_error (neon E)) as [detail|];
      [|destruct (db_cursor_error (neon E)) as [detail|]]; simpl;
      rewrite elem_of_app; (intros [?|Hin]; [done|]);
      by repeat (apply elem_of_cons in Hin as [?|Hin]; [done|]);
         apply elem_of_nil in Hin.
Qed.

End Database.

(** C3 (as stated, refuted). [motion] has no column in [DB_SENSOR_MAP], yet
    asking for its history reaches the store: a connection is opened, a
    cursor created and the connection closed around the rejection; and when
    the store is unreachable the caller is told so, not that the sensor is
    invalid. *)
Lemma invalid_sensor_reaches_the_store :
  DB_SENSOR_MAP !! "motion" = None
  ∧ fetch_historical_data
      (Sample.env Sample.healthy (Sample.store Sample.table))
      "2024-01-05" "motion" []
    = (Returns (None, Some "Invalid sensor requested."),
       [DbConnect "postgresql://neon/db" true; DbCursor; DbClose])
  ∧ database_calls
      (fetch_historical_data
         (Sample.env Sample.healthy (Sample.store Sample.table))
         "2024-01-05" "motion" []).2 ≠ []
  ∧ (fetch_historical_data
       (Sample.env Sample.healthy Sample.unreachable_store)
       "2024-01-05" "motion" []).1
    = Returns (None, Some "Failed to connect to the cloud database.").
Proof. repeat split; try reflexivity. vm_compute. discriminate. Qed.

Lemma invalid_sensor_rejected_after_connecting_witness :
  fetch_historical_data
    (Sample.env Sample.healthy (Sample.store Sample.table))
    "2024-01-05" "motion" [DbCursor]
  = (Returns (None, Some "Invalid sensor requested."),
     [DbCursor; DbConnect "postgresql://neon/db" true; DbCursor; DbClose]).
Proof.
  apply (invalid_sensor_rejected_after_connecting
           (Sample.env Sample.healthy (Sample.store Sample.table))
           "2024-01-05" "motion" [DbCursor]); reflexivity.
Defined.

(** The three rows of the day, oldest first. *)
Example fetch_historical_data_three_rows :
  (fetch_historical_data
     (Sample.env Sample.healthy (Sample.store Sample.table))
     "2024-01-05" "temperature" []).1
  = Returns
      (Some {| chart_labels := ["09:05"; "10:05"; "11:59"];
               chart_datasets := [
                 {| ds_label := "Temperature";
                    ds_data := @float_of Sample.integer_columns <$> [20; 21; 23]%Z;
                    ds_borderColor := "#3498db";
                    ds_tension := (3 # 10)%Q |} ] |},
       None).
Proof. reflexivity. Qed.

(** ** Python strings *)




(** ** The control API and the security page *)

Lemma feed_key_map_entries device feed_key :
  feed_key_map !! device = Some feed_key →
  (device, feed_key) ∈ [("light", "ctrl_light"); ("lcd_text", "ctrl_lcd_text");
                        ("mode", "ctrl_mode")].
Proof. intros Hd. by apply elem_of_list_to_map_2 in Hd. Qed.

Lemma feed_key_map_unmapped device :
  device ≠ "light" → device ≠ "lcd_text" → device ≠ "mode" →
  feed_key_map !! device = None.
Proof.
  intros Hlight Hlcd Hmode. apply not_elem_of_list_to_map_1.
  rewrite !fmap_cons, fmap_nil. simpl. intros Hin.
  repeat (apply elem_of_cons in Hin as [->|Hin]; [done|]).
  by apply elem_of_nil in Hin.
Qed.

Section Control.
Context `{Numeric} (E : environment).

(** Feeds have different URLs. *)
Lemma data_url_inj f1 f2 : data_url E f1 = data_url E f2 → f1 +:+ "/data" = f2 +:+ "/data".
Proof.
  unfold data_url. intros Heq.
  by repeat (apply (inj (String.app _)) in Heq).
Qed.

(** From the call of [send_control_command] on, the handler sends one POST
    and answers 200 or 500. *)
Lemma control_dispatch_run device feed_key f v t :
  FEEDS !! feed_key = Some f →
  ∃ r, (control_dispatch E device feed_key v t).1 = Returns r
       ∧ (resp_status r = 200 ∨ resp_status r = 500)
       ∧ network_calls (control_dispatch E device feed_key v t).2
         = network_calls t ++ [control_request E f v].
Proof.
  intros Hf. unfold control_dispatch, mbind, io_bind.
  rewrite (send_control_command_resolved E _ _ _ _ Hf). cbv zeta.
  destruct (adafruit_io E t _) as [detail|st reason body];
    [|destruct (is_error_status st)]; simpl;
    (eexists; split; [reflexivity|]; split; [auto|]);
    rewrite !network_calls_app; simpl; by rewrite ?app_nil_r.
Qed.

(** The requests one call of [control_device_api] sends. *)
Lemma control_device_api_calls device value t :
  network_calls (control_device_api E device value t).2
  = network_calls t ++
    match feed_key_map !! device with
    | None => []
    | Some _ =>
        if String.eqb device "lcd_text" then
          if (32 <? String.length value)%nat then []
          else [control_request E "home/control/lcd_message" value]
        else if String.eqb device "mode" then
          [control_request E "home/control/mode"
             (if String.eqb (Py.lower value) "on" then "ARMED" else "DISARMED")]
        else [control_request E "home/control/light" (Py.upper value)]
    end.
Proof.
  unfold control_device_api.
  destruct (feed_key_map !! device) as [feed_key|] eqn:Hdevice;
    [|by rewrite app_nil_r].
  apply feed_key_map_entries in Hdevice.
  repeat (apply elem_of_cons in Hdevice as [[= -> ->]|Hdevice]);
    [..|by apply elem_of_nil in Hdevice]; simpl.
  - by destruct (control_dispatch_run "light" "ctrl_light" _ (Py.upper value) t
                   FEEDS_ctrl_light) as (r & _ & _ & ->).
  - unfold Py.len. destruct (32 <? String.length value)%nat;
      [by rewrite app_nil_r|].
    by destruct (control_dispatch_run "lcd_text" "ctrl_lcd_text" _ value t
                   FEEDS_ctrl_lcd_text) as (r & _ & _ & ->).
  - by destruct (control_dispatch_run "mode" "ctrl_mode" _
                   (if String.eqb (Py.lower value) "on" then "ARMED" else "DISARMED")
                   t FEEDS_ctrl_mode) as (r & _ & _ & ->).
Qed.

(** The requests one call of [manage_security] sends. *)
Lemma manage_security_calls method form t :
  network_calls (manage_security E method form t).2
  = network_calls t ++
    match method with
    | GET => []
    | POST =>
        if decide (form !! "action" = Some "arm")
        then [control_request E "home/control/mode" "ARMED"]
        else if decide (form !! "action" = Some "disarm")
        then [control_request E "home/control/mode" "DISARMED"]
        else []
    end.
Proof.
  unfold manage_security. destruct method; [by rewrite app_nil_r|].
  destruct (decide (form !! "action" = Some "arm")) as [Harm|Harm].
  { unfold mbind, io_bind.
    pose proof (send_control_command_calls E "ctrl_mode" _ "ARMED" t
                  FEEDS_ctrl_mode) as Hcalls.
    by destruct (send_control_command E "ctrl_mode" "ARMED" t)
      as [[[success msg]|e] t']. }
  destruct (decide (form !! "action" = Some "disarm")) as [Hdisarm|Hdisarm].
  { unfold mbind, io_bind.
    pose proof (send_control_command_calls E "ctrl_mode" _ "DISARMED" t
                  FEEDS_ctrl_mode) as Hcalls.
    by destruct (send_control_command E "ctrl_mode" "DISARMED" t)
      as [[[success msg]|e] t']. }
  rewrite app_nil_r.
  destruct (decide (form !! "action" = Some "get_logs")) as [Hlogs|Hlogs];
    [|done].
  destruct (form !! "log_date") as [log_date|]; [|done].
  destruct (Py.truthy log_date); [|done].
  unfold mbind, io_bind.
  destruct (fetch_intrusion_logs_trace E log_date t) as (evs & Hevs & _ & Hnet).
  destruct (fetch_intrusion_logs E log_date t) as [[[logs err]|exc] t'];
    simpl in *; subst t'; by rewrite network_calls_app, Hnet, app_nil_r.
Qed.

(** C7. [control_device_api] answers 400 with the trace untouched, so
    before any dispatch or network call, for a device that is none of
    [light], [lcd_text], [mode] (message "Invalid device") and for
    [lcd_text] with a value of more than 32 characters; for [lcd_text] with
    a value of at most 32 characters it sends exactly one POST, to the LCD
    feed, whose value is the text unchanged, and does not answer 400. *)
Theorem control_device_api_validation device value t :
  let run := control_device_api E device value t in
  (device ≠ "light" → device ≠ "lcd_text" → device ≠ "mode" →
     run = (Returns {| resp_success := false; resp_message := "Invalid device";
                       resp_status := 400 |}, t))
  ∧ (device = "lcd_text" → (32 < String.length value)%nat →
     run = (Returns {| resp_success := false;
                       resp_message := "Text must be 32 characters or less.";
                       resp_status := 400 |}, t))
  ∧ (device = "lcd_text" → (String.length value ≤ 32)%nat →
     network_calls run.2
     = network_calls t ++ [control_request E "home/control/lcd_message" value]
     ∧ ∃ r, run.1 = Returns r ∧ resp_status r ≠ 400).
Proof.
  intros run. subst run. split; [|split].
  - intros Hlight Hlcd Hmode. unfold control_device_api.
    by rewrite (feed_key_map_unmapped _ Hlight Hlcd Hmode).
  - intros -> Hlen. unfold control_device_api.
    change (feed_key_map !! "lcd_text") with (Some "ctrl_lcd_text"). simpl.
    unfold Py.len. by destruct (Nat.ltb_spec 32 (String.length value)); [|lia].
  - intros -> Hlen. split.
    + rewrite control_device_api_calls.
      change (feed_key_map !! "lcd_text") with (Some "ctrl_lcd_text"). simpl.
      by destruct (Nat.ltb_spec 32 (String.length value)); [lia|].
    + unfold control_device_api.
      change (feed_key_map !! "lcd_text") with (Some "ctrl_lcd_text"). simpl.
      unfold Py.len. destruct (Nat.ltb_spec 32 (String.length value)); [lia|].
      destruct (control_dispatch_run "lcd_text" "ctrl_lcd_text" _ value t
                  FEEDS_ctrl_lcd_text) as (r & Hr & Hstatus & _).
      exists r. split; [done|]. destruct Hstatus; lia.
Qed.


(** C10. Through the control API and through the security page alike, a
    request that goes out to the URL of the mode feed is the POST of
    ["ARMED"] or the POST of ["DISARMED"]. *)
Theorem mode_feed_receives_armed_or_disarmed t rq :
  rq_url rq = data_url E "home/control/mode" →
  (∀ device value,
     rq ∈ network_calls (control_device_api E device value t).2 →
     rq ∈ network_calls t
     ∨ rq = control_request E "home/control/mode" "ARMED"
     ∨ rq = control_request E "home/control/mode" "DISARMED")
  ∧ (∀ method form,
       rq ∈ network_calls (manage_security E method form t).2 →
       rq ∈ network_calls t
       ∨ rq = control_request E "home/control/mode" "ARMED"
       ∨ rq = control_request E "home/control/mode" "DISARMED").
Proof.
  intros Hurl. split.
  - intros device value. rewrite control_device_api_calls, elem_of_app.
    intros [?|Hnew]; [by left|right].
    destruct (feed_key_map !! device); [|by apply elem_of_nil in Hnew].
    destruct (String.eqb device "lcd_text").
    { destruct (32 <? String.length value)%nat; [by apply elem_of_nil in Hnew|].
      apply list_elem_of_singleton in Hnew as ->.
      apply data_url_inj in Hurl. discriminate Hurl. }
    destruct (String.eqb device "mode").
    { apply list_elem_of_singleton in Hnew as ->.
      destruct (String.eqb (Py.lower value) "on"); auto. }
    apply list_elem_of_singleton in Hnew as ->.
    apply data_url_inj in Hurl. discriminate Hurl.
  - intros method form. rewrite manage_security_calls, elem_of_app.
    intros [?|Hnew]; [by left|right].
    destruct method; [by apply elem_of_nil in Hnew|].
    repeat case_decide; try (by apply elem_of_nil in Hnew);
      apply list_elem_of_singleton in Hnew as ->; auto.
Qed.

End Control.

Lemma control_device_api_validation_witness :
  control_device_api (Sample.env Sample.healthy (Sample.store Sample.table))
    "fan" "ON" []
  = (Returns {| resp_success := false; resp_message := "Invalid device";
                resp_status := 400 |}, [])
  ∧ control_device_api (Sample.env Sample.healthy (Sample.store Sample.table))
      "lcd_text" "123456789012345678901234567890123" []
    = (Returns {| resp_success := false;
                  resp_message := "Text must be 32 characters or less.";
                  resp_status := 400 |}, [])
  ∧ network_calls
      (control_device_api (Sample.env Sample.healthy (Sample.store Sample.table))
         "lcd_text" "12345678901234567890123456789012" []).2
    = [control_request (Sample.env Sample.healthy (Sample.store Sample.table))
         "home/control/lcd_message" "12345678901234567890123456789012"].
Proof.
  split; [|split].
  - by apply (control_device_api_validation
                (Sample.env Sample.healthy (Sample.store Sample.table))
                "fan" "ON" []).
  - apply (control_device_api_validation
             (Sample.env Sample.healthy (Sample.store Sample.table))
             "lcd_text" "123456789012345678901234567890123" []);
      [reflexivity|simpl; lia].
  - apply (control_device_api_validation
             (Sample.env Sample.healthy (Sample.store Sample.table))
             "lcd_text" "12345678901234567890123456789012" []);
      [reflexivity|simpl; lia].
Defined.



Lemma mode_feed_receives_armed_or_disarmed_witness :
  control_request (Sample.env Sample.healthy (Sample.store Sample.table))
    "home/control/mode" "DISARMED"
  ∈ network_calls []
  ∨ control_request (Sample.env Sample.healthy (Sample.store Sample.table))
      "home/control/mode" "DISARMED"
    = control_request (Sample.env Sample.healthy (Sample.store Sample.table))
        "home/control/mode" "ARMED"
  ∨ control_request (Sample.env Sample.healthy (Sample.store Sample.table))
      "home/control/mode" "DISARMED"
    = control_request (Sample.env Sample.healthy (Sample.store Sample.table))
        "home/control/mode" "DISARMED".
Proof.
  apply (mode_feed_receives_armed_or_disarmed
           (Sample.env Sample.healthy (Sample.store Sample.table)) []
           (control_request (Sample.env Sample.healthy (Sample.store Sample.table))
              "home/control/mode" "DISARMED")
           eq_refl) with "mode" "whatever".
  vm_compute. apply list_elem_of_singleton. reflexivity.
Defined.

(** * Further properties *)

(** ** [send_control_command] and [control_device_api] to the end *)

Lemma database_calls_app t1 t2 :
  database_calls (t1 ++ t2) = database_calls t1 ++ database_calls t2.
Proof. unfold database_calls. apply filter_app. Qed.

Lemma error_text_is_not_success detail : "Error: " +:+ detail ≠ "Success".
Proof. discriminate. Qed.

Section Dispatch.
Context `{Numeric} (E : environment).

(** A resolved command in terms of [failure_detail]. *)
Lemma send_control_command_detail feed_key f value t :
  FEEDS !! feed_key = Some f →
  send_control_command E feed_key value t =
    match failure_detail (control_request E f value)
            (adafruit_io E t (control_request E f value)) with
    | None => (Returns (true, "Success"), t ++ [NetCall (control_request E f value)])
    | Some detail =>
        (Returns (false, "Error: " +:+ detail),
         t ++ [NetCall (control_request E f value);
               Stdout ("Error sending control command to " +:+ feed_key +:+ ": "
                       +:+ detail)])
    end.
Proof.
  intros Hf. rewrite (send_control_command_resolved E _ _ _ _ Hf). cbv zeta.
  destruct (adafruit_io E t _) as [detail|st reason body]; simpl; [done|].
  by destruct (is_error_status st).
Qed.

(** X1. [send_control_command] never raises: every [RequestException] is
    turned into a result.  The flag is [True] exactly when the message is
    ["Success"]; the call sends at most one request, the POST for the feed
    that the key resolves to, and makes no call on the database driver. *)
Theorem send_control_command_never_raises feed_key value t :
  ∃ ok msg evs,
    send_control_command E feed_key value t = (Returns (ok, msg), t ++ evs)
    ∧ (ok = true ↔ msg = "Success")
    ∧ database_calls evs = []
    ∧ (network_calls evs = []
       ∨ ∃ f, FEEDS !! feed_key = Some f
              ∧ network_calls evs = [control_request E f value]).
Proof.
  destruct (FEEDS !! feed_key) as [f|] eqn:Hf.
  - rewrite (send_control_command_detail _ _ _ _ Hf).
    destruct (failure_detail _ _) as [detail|].
    + eexists false, _, _. split; [reflexivity|]. split; [|split; [done|]].
      * split; [done|]. intros Heq. by apply error_text_is_not_success in Heq.
      * right. by exists f.
    + eexists true, _, _. split; [reflexivity|]. split; [done|]. split; [done|].
      right. by exists f.
  - unfold send_control_command. rewrite Hf.
    exists false, "Invalid feed key", []. rewrite app_nil_r.
    split; [done|]. split; [done|]. split; [done|]. by left.
Qed.

(** The tail of the handler in terms of [failure_detail]. *)
Lemma control_dispatch_detail device feed_key f v t :
  FEEDS !! feed_key = Some f →
  control_dispatch E device feed_key v t =
    match failure_detail (control_request E f v)
            (adafruit_io E t (control_request E f v)) with
    | None =>
        (Returns {| resp_success := true;
                    resp_message :=
                      if String.eqb device "lcd_text"
                      then Py.capitalize (Py.replace "_" " " device)
                           +:+ " set to '" +:+ v +:+ "'"
                      else Py.capitalize device +:+ " set to " +:+ v;
                    resp_status := 200 |},
         t ++ [NetCall (control_request E f v)])
    | Some detail =>
        (Returns {| resp_success := false;
                    resp_message := "Failed to control " +:+ device +:+ ": "
                                    +:+ "Error: " +:+ detail;
                    resp_status := 500 |},
         t ++ [NetCall (control_request E f v);
               Stdout ("Error sending control command to " +:+ feed_key +:+ ": "
                       +:+ detail)])
    end.
Proof.
  intros Hf. unfold control_dispatch, mbind, io_bind.
  rewrite (send_control_command_detail _ _ _ _ Hf).
  by destruct (failure_detail _ _).
Qed.

(** The handler reaches [control_dispatch] with a feed that resolves, or
    answers 400 on the spot. *)
Lemma control_device_api_cases device value t :
  (∃ msg, control_device_api E device value t
          = (Returns {| resp_success := false; resp_message := msg;
                        resp_status := 400 |}, t))
  ∨ (∃ feed_key f v,
       feed_key_map !! device = Some feed_key ∧ FEEDS !! feed_key = Some f
       ∧ control_device_api E device value t
         = control_dispatch E device feed_key v t).
Proof.
  unfold control_device_api.
  destruct (feed_key_map !! device) as [feed_key|] eqn:Hdevice; [|left; eauto].
  pose proof Hdevice as Hin. apply feed_key_map_entries in Hin.
  repeat (apply elem_of_cons in Hin as [[= -> ->]|Hin]);
    [..|by apply elem_of_nil in Hin]; simpl.
  - right. eexists _, _, _. split; [done|]. split; [apply FEEDS_ctrl_light|done].
  - destruct (32 <? Py.len value)%nat; [left; eauto|].
    right. eexists _, _, _. split; [done|]. split; [apply FEEDS_ctrl_lcd_text|done].
  - right. eexists _, _, _. split; [done|]. split; [apply FEEDS_ctrl_mode|done].
Qed.

(** X2. [control_device_api] never raises and answers with status 200, 400
    or 500; the body says success exactly with status 200; status 400 is
    answered exactly when the call left the trace untouched, and with any
    other status exactly one request went out; the database driver is never
    called. *)
Theorem control_device_api_response device value t :
  ∃ r evs,
    control_device_api E device value t = (Returns r, t ++ evs)
    ∧ (resp_status r = 200 ∨ resp_status r = 400 ∨ resp_status r = 500)
    ∧ (resp_success r = true ↔ resp_status r = 200)
    ∧ (resp_status r = 400 ↔ evs = [])
    ∧ (resp_status r ≠ 400 → length (network_calls evs) = 1)
    ∧ database_calls evs = [].
Proof.
  destruct (control_device_api_cases device value t)
    as [[msg ->]|(feed_key & f & v & _ & Hf & ->)].
  - eexists _, []. rewrite app_nil_r. split; [reflexivity|]. simpl.
    repeat split; auto; done.
  - rewrite (control_dispatch_detail _ _ _ _ _ Hf).
    destruct (failure_detail _ _) as [detail|];
      (eexists _, _; split; [reflexivity|]); simpl;
      repeat split; auto; try done; try lia.
Qed.

(** X3. When [control_device_api] does not answer 400, its answer is decided
    by the one exchange it makes: status 200 when neither [requests.post] nor
    [raise_for_status] raises, and otherwise status 500 with the message
    "Failed to control <device>: Error: <text of the exception>".  In
    particular it never reports "Invalid feed key": every feed key of
    [feed_key_map] resolves in [FEEDS]. *)
Theorem control_device_api_reports_the_exchange device value t r :
  (control_device_api E device value t).1 = Returns r →
  resp_status r ≠ 400 →
  ∃ rq,
    network_calls (control_device_api E device value t).2
    = network_calls t ++ [rq]
    ∧ match failure_detail rq (adafruit_io E t rq) with
      | None => resp_status r = 200 ∧ resp_success r = true
      | Some detail =>
          r = {| resp_success := false;
                 resp_message := "Failed to control " +:+ device +:+ ": "
                                 +:+ "Error: " +:+ detail;
                 resp_status := 500 |}
      end.
Proof.
  destruct (control_device_api_cases device value t)
    as [[msg ->]|(feed_key & f & v & _ & Hf & ->)].
  - intros [= <-]. done.
  - rewrite (control_dispatch_detail _ _ _ _ _ Hf).
    exists (control_request E f v).
    destruct (failure_detail _ _) as [detail|]; simpl in *.
    + split; [|congruence].
      rewrite network_calls_app. simpl. done.
    + split; [by rewrite network_calls_app|]. simplify_eq. done.
Qed.


End Dispatch.

(** ** The database functions on every path *)

Lemma DB_SENSOR_MAP_entries sensor db_column :
  DB_SENSOR_MAP !! sensor = Some db_column →
  (sensor = "temperature" ∧ db_column = "temp_c")
  ∨ (sensor = "humidity" ∧ db_column = "humidity_pct").
Proof.
  intros Hs. apply elem_of_list_to_map_2 in Hs.
  repeat (apply elem_of_cons in Hs as [[= -> ->]|Hs]); auto.
  by apply elem_of_nil in Hs.
Qed.

Section Paths.
Context `{Numeric} (E : environment).

Lemma DB_SENSOR_MAP_numeric sensor db_column :
  DB_SENSOR_MAP !! sensor = Some db_column →
  ∃ col, numeric_column db_column = Some col.
Proof.
  intros Hs. destruct (DB_SENSOR_MAP_entries _ _ Hs) as [[_ ->]|[_ ->]];
    by eexists.
Qed.

(** The comprehension over [float(row[1])]: the floats of the values when
    none is NULL, the [TypeError] of [float(None)] otherwise. *)
Lemma mapM_py_float_run (results : list (datetime * option number)) t :
  mapM (M:=io) (λ row, py_float row.2) results t =
    match mapM (M:=option) snd results with
    | Some vals => (Returns (float_of <$> vals), t)
    | None =>
        (Raises (Exn TypeError
                   "float() argument must be a string or a real number, not 'NoneType'"),
         t)
    end.
Proof.
  induction results as [|[ts [v|]] results IH]; simpl; [done| |done].
  unfold mbind at 1. unfold io_bind at 1. simpl.
  unfold mbind at 1. unfold io_bind at 1. rewrite IH.
  by destruct (mapM snd results).
Qed.


Lemma mapM_snd_None (results : list (datetime * option number)) :
  mapM (M:=option) snd results = None ↔ ∃ ts, (ts, None) ∈ results.
Proof.
  rewrite mapM_None, Exists_exists. split.
  - intros ([ts v] & Hin & Hv). simpl in Hv. subst v. by exists ts.
  - intros [ts Hin]. by exists (ts, None).
Qed.

(** [fetch_historical_data] for a sensor of [DB_SENSOR_MAP], path by path. *)
Lemma fetch_historical_data_run date sensor db_column col t :
  DB_SENSOR_MAP !! sensor = Some db_column →
  numeric_column db_column = Some col →
  fetch_historical_data E date sensor t =
    let dsn := NEON_DATABASE_URL E in
    let stmt := DbExecute (SelectHistory db_column) date in
    match db_connect_error (neon E) with
    | Some detail =>
        (Returns (None, Some "Failed to connect to the cloud database."),
         t ++ [DbConnect dsn false;
               Stdout ("DATABASE CONNECTION ERROR: " +:+ detail)])
    | None =>
        match db_cursor_error (neon E) with
        | Some detail =>
            (Returns (None, Some ("Database Query Error: " +:+ detail)),
             t ++ [DbConnect dsn true; DbCursor;
                   Stdout ("Database query error: " +:+ detail); DbClose])
        | None =>
            match db_execute_error (neon E) with
            | Some detail =>
                (Returns (None, Some ("Database Query Error: " +:+ detail)),
                 t ++ [DbConnect dsn true; DbCursor; stmt;
                       Stdout ("Database query error: " +:+ detail); DbClose])
            | None =>
                match db_date_of_text (neon E) date with
                | None =>
                    let detail := "invalid input syntax for type date: " +:+ date in
                    (Returns (None, Some ("Database Query Error: " +:+ detail)),
                     t ++ [DbConnect dsn true; DbCursor; stmt;
                           Stdout ("Database query error: " +:+ detail); DbClose])
                | Some d =>
                    let rows := history_rows col d (sensor_data (neon E)) in
                    (match mapM (M:=option) snd rows with
                     | Some vals =>
                         Returns
                           (Some {| chart_labels := strftime_HM <$> rows.*1;
                                    chart_datasets := [
                                      {| ds_label := Py.capitalize sensor;
                                         ds_data := float_of <$> vals;
                                         ds_borderColor := "#3498db";
                                         ds_tension := (3 # 10)%Q |} ] |},
                            None)
                     | None =>
                         Raises (Exn TypeError
                           "float() argument must be a string or a real number, not 'NoneType'")
                     end,
                     t ++ [DbConnect dsn true; DbCursor; stmt; DbFetchAll; DbClose])
                end
            end
        end
    end.
Proof.
  intros Hsensor Hcol. unfold fetch_historical_data.
  unfold mbind at 1. unfold io_bind at 1. rewrite connect_to_neon_run.
  destruct (db_connect_error (neon E)) as [detail|]; [done|].
  rewrite Hsensor.
  unfold conn_cursor, conn_close, cursor_execute, fetchall_history.
  unfold try_finally, try_except.
  unfold mbind at 1. unfold io_bind at 1.
  destruct (db_cursor_error (neon E)) as [detail|]; simpl.
  { unfold_io. simpl. by rewrite <- !app_assoc. }
  unfold mbind at 1. unfold io_bind at 1.
  destruct (db_execute_error (neon E)) as [detail|]; simpl.
  { unfold_io. simpl. by rewrite <- !app_assoc. }
  destruct (db_date_of_text (neon E) date) as [d|]; simpl;
    [|unfold_io; simpl; by rewrite <- !app_assoc].
  rewrite Hcol. simpl.
  unfold mbind at 1. unfold io_bind at 1.
  unfold mbind at 1. unfold io_bind at 1. unfold emit at 1. simpl.
  unfold mret at 1. unfold io_ret at 1.
  unfold mbind at 1. unfold io_bind at 1.
  rewrite mapM_py_float_run.
  destruct (mapM snd _) as [vals|]; simpl.
  - unfold emit. rewrite <- !app_assoc. simpl.
    by rewrite <- list_fmap_compose.
  - unfold emit. by rewrite <- !app_assoc.
Qed.

(** [fetch_intrusion_logs], path by path. *)
Lemma fetch_intrusion_logs_run date t :
  fetch_intrusion_logs E date t =
    let dsn := NEON_DATABASE_URL E in
    let stmt := DbExecute SelectIntrusions date in
    match db_connect_error (neon E) with
    | Some detail =>
        (Returns ([], Some "Failed to connect to the cloud database."),
         t ++ [DbConnect dsn false;
               Stdout ("DATABASE CONNECTION ERROR: " +:+ detail)])
    | None =>
        match db_cursor_error (neon E) with
        | Some detail =>
            (Returns ([], Some ("Database Query Error: " +:+ detail)),
             t ++ [DbConnect dsn true; DbCursor;
                   Stdout ("Database query error: " +:+ detail); DbClose])
        | None =>
            match db_execute_error (neon E) with
            | Some detail =>
                (Returns ([], Some ("Database Query Error: " +:+ detail)),
                 t ++ [DbConnect dsn true; DbCursor; stmt;
                       Stdout ("Database query error: " +:+ detail); DbClose])
            | None =>
                match db_date_of_text (neon E) date with
                | None =>
                    let detail := "invalid input syntax for type date: " +:+ date in
                    (Returns ([], Some ("Database Query Error: " +:+ detail)),
                     t ++ [DbConnect dsn true; DbCursor; stmt;
                           Stdout ("Database query error: " +:+ detail); DbClose])
                | Some d =>
                    (Returns (intrusion_entry
                                <$> intrusion_rows d (sensor_data (neon E)),
                              None),
                     t ++ [DbConnect dsn true; DbCursor; stmt; DbFetchAll; DbClose])
                end
            end
        end
    end.
Proof.
  unfold fetch_intrusion_logs.
  unfold mbind at 1. unfold io_bind at 1. rewrite connect_to_neon_run.
  destruct (db_connect_error (neon E)) as [detail|]; [done|].
  unfold conn_cursor, conn_close, cursor_execute, fetchall_intrusions.
  unfold_io.
  destruct (db_cursor_error (neon E)) as [detail|]; simpl;
    [by rewrite <- !app_assoc|].
  destruct (db_execute_error (neon E)) as [detail|]; simpl;
    [by rewrite <- !app_assoc|].
  destruct (db_date_of_text (neon E) date) as [d|]; simpl;
    by rewrite <- !app_assoc.
Qed.

End Paths.

(** ** The two queries against PostgreSQL *)

Lemma intrusion_statement_never_resolves ty :
  is_Some (intrusion_statement_error ty).
Proof. destruct ty; by eexists. Qed.

Section IntrusionStatement.
Context `{Numeric} (E : environment).

(** C4 (the code departs from it). PostgreSQL refuses the statement of
    [fetch_intrusion_logs] whatever type the column [motion] is declared
    with: [motion = TRUE] and [motion = 1] cannot both resolve.  So once the
    connection and the cursor are there, the call executes the statement,
    catches the error, prints it, closes the connection and returns no
    entry at all beside ["Database Query Error: ..."], whatever the table
    holds. *)
Theorem intrusion_statement_is_rejected date t ty :
  db_connect_error (neon E) = None →
  db_cursor_error (neon E) = None →
  db_execute_error (neon E) = intrusion_statement_error ty →
  ∃ detail,
    intrusion_statement_error ty = Some detail
    ∧ fetch_intrusion_logs E date t
      = (Returns ([], Some ("Database Query Error: " +:+ detail)),
         t ++ [DbConnect (NEON_DATABASE_URL E) true; DbCursor;
               DbExecute SelectIntrusions date;
               Stdout ("Database query error: " +:+ detail); DbClose]).
Proof.
  intros Hconn Hcur Hexec.
  destruct (intrusion_statement_never_resolves ty) as [detail Hdetail].
  exists detail. split; [done|].
  by rewrite fetch_intrusion_logs_run, Hconn, Hcur, Hexec, Hdetail.
Qed.

End IntrusionStatement.

Lemma intrusion_statement_is_rejected_witness :
  ∃ detail,
    intrusion_statement_error SqlBoolean = Some detail
    ∧ fetch_intrusion_logs Fixtures.logging "2024-01-05" []
      = (Returns ([], Some ("Database Query Error: " +:+ detail)),
         [DbConnect "postgresql://neon/db" true; DbCursor;
          DbExecute SelectIntrusions "2024-01-05";
          Stdout ("Database query error: " +:+ detail); DbClose]).
Proof.
  apply (intrusion_statement_is_rejected Fixtures.logging "2024-01-05" []
           SqlBoolean); reflexivity.
Defined.

(** Two detections with a picture on the requested day, and the log comes
    back empty with the server's complaint. *)
Example fetch_intrusion_logs_on_boolean_column :
  (fetch_intrusion_logs Fixtures.logging "2024-01-05" []).1
  = Returns ([], Some "Database Query Error: operator does not exist: boolean = integer")
  ∧ omap (select_intrusion (2024, 1, 5)%nat) Fixtures.readings
    = [(Sample.at_time 10 5 0, Some "a.jpg"); (Sample.at_time 9 5 0, Some "b.jpg")].
Proof. split; reflexivity. Qed.






(** The three readings of the day, oldest first, as they were stored. *)
Example fetch_historical_data_three_readings :
  (fetch_historical_data Fixtures.charting "2024-01-05" "temperature" []).1
  = Returns
      (Some {| chart_labels := ["09:05"; "10:05"; "11:59"];
               chart_datasets := [
                 @Build_dataset double_precision "Temperature"
                   [20.5; 21; 23.25]%float "#3498db" (3 # 10)%Q ] |},
       None).
Proof. reflexivity. Qed.


Section PathProperties.
Context `{Numeric} (E : environment).

(** X5. [connect_to_neon] never raises: a [psycopg2.Error] of
    [psycopg2.connect] is printed and turned into [None].  It returns [None]
    exactly when the store refuses the connection, and then no connection is
    open; otherwise exactly one is. *)
Theorem connect_to_neon_swallows_errors t :
  ∃ conn evs,
    connect_to_neon E t = (Returns conn, t ++ evs)
    ∧ (conn = None ↔ is_Some (db_connect_error (neon E)))
    ∧ connections_opened evs = match conn with Some _ => 1 | None => 0 end
    ∧ connections_closed evs = 0.
Proof.
  rewrite connect_to_neon_run.
  destruct (db_connect_error (neon E)) as [detail|];
    (eexists _, _; split; [reflexivity|]); simpl.
  - split; [|done]. split; [by eexists|done].
  - split; [|done]. split; [done|]. by intros [? [=]].
Qed.

(** X6. When the store refuses the connection, both query functions return
    the message "Failed to connect to the cloud database." with no data,
    whatever the sensor or the date; the attempt to connect is the only call
    on the driver: no cursor, no statement, nothing to close. *)
Theorem refused_connection_is_reported date sensor detail t :
  db_connect_error (neon E) = Some detail →
  fetch_historical_data E date sensor t
  = (Returns (None, Some "Failed to connect to the cloud database."),
     t ++ [DbConnect (NEON_DATABASE_URL E) false;
           Stdout ("DATABASE CONNECTION ERROR: " +:+ detail)])
  ∧ fetch_intrusion_logs E date t
    = (Returns ([], Some "Failed to connect to the cloud database."),
       t ++ [DbConnect (NEON_DATABASE_URL E) false;
             Stdout ("DATABASE CONNECTION ERROR: " +:+ detail)]).
Proof.
  intros Hconn. split.
  - unfold fetch_historical_data. unfold mbind at 1. unfold io_bind at 1.
    by rewrite connect_to_neon_run, Hconn.
  - by rewrite fetch_intrusion_logs_run, Hconn.
Qed.

(** X7. When the connection and the cursor are fine but the statement
    fails, because the store rejects it or because the text bound to it is
    no date, both query functions return "Database Query Error: " followed by
    the text of the exception and no data; nothing is fetched, and the
    connection is closed after the error is printed. *)
Theorem failed_statement_is_reported date sensor db_column t :
  DB_SENSOR_MAP !! sensor = Some db_column →
  db_connect_error (neon E) = None →
  db_cursor_error (neon E) = None →
  is_Some (db_execute_error (neon E)) ∨ db_date_of_text (neon E) date = None →
  ∃ detail,
    fetch_historical_data E date sensor t
    = (Returns (None, Some ("Database Query Error: " +:+ detail)),
       t ++ [DbConnect (NEON_DATABASE_URL E) true; DbCursor;
             DbExecute (SelectHistory db_column) date;
             Stdout ("Database query error: " +:+ detail); DbClose])
    ∧ fetch_intrusion_logs E date t
      = (Returns ([], Some ("Database Query Error: " +:+ detail)),
         t ++ [DbConnect (NEON_DATABASE_URL E) true; DbCursor;
               DbExecute SelectIntrusions date;
               Stdout ("Database query error: " +:+ detail); DbClose]).
Proof.
  intros Hsensor Hconn Hcur Hfail.
  destruct (DB_SENSOR_MAP_numeric _ _ Hsensor) as [col Hcol].
  rewrite (fetch_historical_data_run E _ _ _ _ _ Hsensor Hcol),
    fetch_intrusion_logs_run, Hconn, Hcur. cbv zeta.
  destruct (db_execute_error (neon E)) as [detail|]; [by eexists|].
  destruct Hfail as [[? [=]]|Hdate]. rewrite Hdate. by eexists.
Qed.

(** X8. [fetch_intrusion_logs] never raises.  It never returns entries
    together with an error, never calls the feed service, and returns no
    error exactly when the store accepts the connection, the cursor and the
    statement and reads the text as a date. *)
Theorem fetch_intrusion_logs_never_raises date t :
  ∃ logs err evs,
    fetch_intrusion_logs E date t = (Returns (logs, err), t ++ evs)
    ∧ (is_Some err → logs = [])
    ∧ network_calls evs = []
    ∧ (err = None ↔
         db_connect_error (neon E) = None ∧ db_cursor_error (neon E) = None
         ∧ db_execute_error (neon E) = None
         ∧ is_Some (db_date_of_text (neon E) date)).
Proof.
  rewrite fetch_intrusion_logs_run. cbv zeta.
  assert (∀ A (x : A), ¬ (Some x = None)) as Hsome by done.
  assert (∀ A, ¬ is_Some (@None A)) as Hnone by (by intros A [? [=]]).
  destruct (db_connect_error (neon E)) as [d1|];
    [|destruct (db_cursor_error (neon E)) as [d2|];
      [|destruct (db_execute_error (neon E)) as [d3|];
        [|destruct (db_date_of_text (neon E) date) as [d|]]]];
    (eexists _, _, _; split; [reflexivity|]);
    (split; [|split; [done|]]);
    first [ done
          | by intros Herr; destruct (Hnone _ Herr)
          | split; [done|]; intros (H1 & H2 & H3 & H4);
            first [ by destruct (Hsome _ _ H1) | by destruct (Hsome _ _ H2)
                  | by destruct (Hsome _ _ H3) | by destruct (Hnone _ H4) ]
          | split; [|done]; intros _; repeat split; by eexists ].
Qed.

(** X10. A call of [fetch_historical_data] has one of three ends: it
    returns a chart and no error, it returns an error and no chart, or it
    raises a [TypeError]; it never returns both or neither, raises nothing
    else, and never calls the feed service. *)
Theorem fetch_historical_data_ends date sensor t :
  ((∃ chart, (fetch_historical_data E date sensor t).1
             = Returns (Some chart, None))
   ∨ (∃ err, (fetch_historical_data E date sensor t).1
             = Returns (None, Some err))
   ∨ (∃ msg, (fetch_historical_data E date sensor t).1
             = Raises (Exn TypeError msg)))
  ∧ network_calls (fetch_historical_data E date sensor t).2 = network_calls t.
Proof.
  split.
  - destruct (DB_SENSOR_MAP !! sensor) as [db_column|] eqn:Hsensor.
    + destruct (DB_SENSOR_MAP_numeric _ _ Hsensor) as [col Hcol].
      rewrite (fetch_historical_data_run E _ _ _ _ _ Hsensor Hcol). cbv zeta.
      destruct (db_connect_error (neon E)) as [d1|]; [right; left; by eexists|].
      destruct (db_cursor_error (neon E)) as [d2|]; [right; left; by eexists|].
      destruct (db_execute_error (neon E)) as [d3|]; [right; left; by eexists|].
      destruct (db_date_of_text (neon E) date) as [d|];
        [|right; left; by eexists].
      simpl. destruct (mapM snd _) as [vals|].
      * left. by eexists.
      * right. right. by eexists.
    + rewrite (fetch_historical_data_invalid_sensor E _ _ _ Hsensor). cbv zeta.
      right. left.
      destruct (db_connect_error (neon E)) as [d1|]; [by eexists|].
      destruct (db_cursor_error (neon E)) as [d2|]; by eexists.
  - destruct (fetch_historical_data_trace E date sensor t) as (evs & -> & _ & Hnet).
    by rewrite network_calls_app, Hnet, app_nil_r.
Qed.

(** X11. On the path where the store accepts everything,
    [fetch_historical_data] raises exactly when some row of the requested
    date holds NULL in the sensor's column; what it raises is the
    [TypeError] of [float(None)], and the connection has been closed by
    then. *)
Theorem null_value_raises_type_error date sensor db_column col d t :
  DB_SENSOR_MAP !! sensor = Some db_column →
  numeric_column db_column = Some col →
  db_connect_error (neon E) = None →
  db_cursor_error (neon E) = None →
  db_execute_error (neon E) = None →
  db_date_of_text (neon E) date = Some d →
  ((∃ e, (fetch_historical_data E date sensor t).1 = Raises e)
   ↔ ∃ r ts, r ∈ sensor_data (neon E) ∧ ts_iso r = Some ts ∧ DATE ts = d
             ∧ col r = None)
  ∧ (∀ e, (fetch_historical_data E date sensor t).1 = Raises e →
       exn_cls e = TypeError
       ∧ (fetch_historical_data E date sensor t).2
         = t ++ [DbConnect (NEON_DATABASE_URL E) true; DbCursor;
                 DbExecute (SelectHistory db_column) date; DbFetchAll; DbClose]).
Proof.
  intros Hsensor Hcol Hconn Hcur Hexec Hdate.
  rewrite (fetch_historical_data_run E _ _ _ _ _ Hsensor Hcol),
    Hconn, Hcur, Hexec, Hdate. cbv zeta. simpl.
  destruct (mapM snd _) as [vals|] eqn:Hvals.
  - split; [|by intros e [=]]. split; [by intros [e [=]]|].
    intros (r & ts & Hr & Hts & Hd & Hnull).
    assert (mapM (M:=option) snd (history_rows col d (sensor_data (neon E))) = None)
      as Hnone; [|congruence].
    apply mapM_snd_None. exists ts. apply history_rows_elem. by exists r.
  - split; [|by intros e [= <-]]. split; [|by eexists].
    intros _. apply mapM_snd_None in Hvals as [ts Hin].
    apply history_rows_elem in Hin as (r & Hr & Hts & Hd & Hnull). by exists r, ts.
Qed.

(** X12. Whenever [fetch_historical_data] returns a chart, there is no
    error beside it, the sensor is [temperature] or [humidity] and the chart
    has exactly one dataset, labelled "Temperature" or "Humidity", with as
    many values as the chart has labels; every label has five characters. *)
Theorem returned_chart_is_well_formed date sensor t chart err :
  (fetch_historical_data E date sensor t).1 = Returns (Some chart, err) →
  err = None
  ∧ ∃ ds,
      chart_datasets chart = [ds]
      ∧ length (chart_labels chart) = length (ds_data ds)
      ∧ Forall (λ label, String.length label = 5) (chart_labels chart)
      ∧ ((sensor = "temperature" ∧ ds_label ds = "Temperature")
         ∨ (sensor = "humidity" ∧ ds_label ds = "Humidity")).
Proof.
  destruct (DB_SENSOR_MAP !! sensor) as [db_column|] eqn:Hsensor.
  - destruct (DB_SENSOR_MAP_numeric _ _ Hsensor) as [col Hcol].
    rewrite (fetch_historical_data_run E _ _ _ _ _ Hsensor Hcol). cbv zeta.
    destruct (db_connect_error (neon E)) as [d1|]; [by intros [=]|].
    destruct (db_cursor_error (neon E)) as [d2|]; [by intros [=]|].
    destruct (db_execute_error (neon E)) as [d3|]; [by intros [=]|].
    destruct (db_date_of_text (neon E) date) as [d|]; [|by intros [=]].
    simpl. destruct (mapM snd _) as [vals|] eqn:Hvals; [|by intros [=]].
    intros [= <- <-]. split; [done|]. eexists. split; [reflexivity|]. simpl.
    split; [|split].
    + apply length_mapM in Hvals. by rewrite !length_fmap.
    + apply Forall_fmap, Forall_forall. by intros ts _.
    + destruct (DB_SENSOR_MAP_entries _ _ Hsensor) as [[-> _]|[-> _]]; auto.
  - rewrite (fetch_historical_data_invalid_sensor E _ _ _ Hsensor). cbv zeta.
    destruct (db_connect_error (neon E)) as [d1|]; [by intros [=]|].
    destruct (db_cursor_error (neon E)) as [d2|]; by intros [=].
Qed.

(** X13. A date on which the table has no row is no error: on the path
    where the store accepts everything, [fetch_historical_data] then returns
    a chart with no labels and an empty dataset, and no error. *)
Theorem empty_day_gives_empty_chart date sensor db_column d t :
  DB_SENSOR_MAP !! sensor = Some db_column →
  db_connect_error (neon E) = None →
  db_cursor_error (neon E) = None →
  db_execute_error (neon E) = None →
  db_date_of_text (neon E) date = Some d →
  (∀ r ts, r ∈ sensor_data (neon E) → ts_iso r = Some ts → DATE ts ≠ d) →
  (fetch_historical_data E date sensor t).1
  = Returns (Some {| chart_labels := [];
                     chart_datasets := [
                       {| ds_label := Py.capitalize sensor; ds_data := [];
                          ds_borderColor := "#3498db";
                          ds_tension := (3 # 10)%Q |} ] |},
             None).
Proof.
  intros Hsensor Hconn Hcur Hexec Hdate Hempty.
  destruct (DB_SENSOR_MAP_numeric _ _ Hsensor) as [col Hcol].
  rewrite (fetch_historical_data_run E _ _ _ _ _ Hsensor Hcol),
    Hconn, Hcur, Hexec, Hdate. cbv zeta. simpl.
  assert (history_rows col d (sensor_data (neon E)) = []) as ->; [|done].
  destruct (history_rows col d (sensor_data (neon E))) as [|[ts v] rows] eqn:Hrows;
    [done|].
  assert ((ts, v) ∈ history_rows col d (sensor_data (neon E))) as Hin
    by (rewrite Hrows; left).
  apply history_rows_elem in Hin as (r & Hr & Hts & Hd & _).
  by destruct (Hempty r ts Hr Hts).
Qed.

End PathProperties.

(** ** The pages *)

Lemma stdout_is_no_call log :
  (∀ ev, ev ∈ log → ∃ line, ev = Stdout line) →
  network_calls log = [] ∧ database_calls log = [].
Proof.
  induction log as [|ev log IH]; intros Hlog; [done|].
  destruct (Hlog ev) as [line ->]; [left|].
  destruct IH as [Hnet Hdb]; [intros ev' Hev'; apply Hlog; by right|].
  split; [done|]. unfold database_calls in *. by rewrite filter_cons.
Qed.

Section PageProperties.
Context `{Numeric} (jsonify_text : chart → string) (E : environment).

Lemma fetch_historical_data_chart_xor_error date sensor t chart_data err t' :
  fetch_historical_data E date sensor t = (Returns (chart_data, err), t') →
  is_Some chart_data ↔ err = None.
Proof.
  destruct (DB_SENSOR_MAP !! sensor) as [db_column|] eqn:Hsensor.
  - destruct (DB_SENSOR_MAP_numeric _ _ Hsensor) as [col Hcol].
    rewrite (fetch_historical_data_run E _ _ _ _ _ Hsensor Hcol). cbv zeta.
    destruct (db_connect_error (neon E)) as [d1|];
      [|destruct (db_cursor_error (neon E)) as [d2|];
        [|destruct (db_execute_error (neon E)) as [d3|];
          [|destruct (db_date_of_text (neon E) date) as [d|];
            [destruct (mapM snd _) as [vals|]|]]]];
      intros [= <- <- <-];
      first [ by split; [intros [? [=]]|] | by split; [|eexists] ].
  - rewrite (fetch_historical_data_invalid_sensor E _ _ _ Hsensor). cbv zeta.
    destruct (db_connect_error (neon E)) as [d1|];
      [|destruct (db_cursor_error (neon E)) as [d2|]];
      intros [= <- <- <-]; by split; [intros [? [=]]|].
Qed.

Lemma fetch_intrusion_logs_returns date t :
  ∃ logs err evs,
    fetch_intrusion_logs E date t = (Returns (logs, err), t ++ evs)
    ∧ network_calls evs = [].
Proof.
  rewrite fetch_intrusion_logs_run. cbv zeta.
  destruct (db_connect_error (neon E)) as [d1|];
    [|destruct (db_cursor_error (neon E)) as [d2|];
      [|destruct (db_execute_error (neon E)) as [d3|];
        [|destruct (db_date_of_text (neon E) date) as [d|]]]];
    by eexists _, _, _.
Qed.

(** X14. [manage_security] does nothing on GET and on a POST whose action
    is none of [arm], [disarm], [get_logs]: no collaborator is called and the
    page shows no message, no entries and no error. *)
Theorem manage_security_idle method form t :
  method = GET
  ∨ (form !! "action" ≠ Some "arm" ∧ form !! "action" ≠ Some "disarm"
     ∧ form !! "action" ≠ Some "get_logs") →
  manage_security E method form t
  = (Returns {| status_msg := None; intrusion_logs := []; log_error := None;
                selected_log_date := None |}, t).
Proof.
  intros [->|(Harm & Hdisarm & Hlogs)]; [done|].
  unfold manage_security. destruct method; [done|].
  by rewrite !decide_False.
Qed.

(** X15. Asking [manage_security] for the logs without a date, the field
    missing or empty, calls no collaborator: the page carries the error
    "Please select a date to fetch logs." and no entries. *)
Theorem manage_security_logs_need_a_date form t :
  form !! "action" = Some "get_logs" →
  form !! "log_date" = None ∨ form !! "log_date" = Some EmptyString →
  manage_security E POST form t
  = (Returns {| status_msg := None; intrusion_logs := [];
                log_error := Some "Please select a date to fetch logs.";
                selected_log_date := form !! "log_date" |}, t).
Proof.
  intros Haction Hdate. unfold manage_security.
  rewrite Haction, !decide_False, decide_True by done.
  by destruct Hdate as [-> | ->].
Qed.

(** X16. Arming and disarming through [manage_security] make exactly one
    exchange, the POST of ["ARMED"] or ["DISARMED"] to the mode feed, and the
    status message tells how it went: "Security System: ARMED" (or
    "DISARMED") with "Message: Success" when nothing was raised, "Failed to
    Arm" (or "Failed to Disarm") with the text of the exception otherwise. *)
Theorem manage_security_arm_and_disarm form t :
  (form !! "action" = Some "arm" →
   manage_security E POST form t =
     match failure_detail (control_request E "home/control/mode" "ARMED")
             (adafruit_io E t (control_request E "home/control/mode" "ARMED")) with
     | None =>
         (Returns {| status_msg := Some "Security System: ARMED. Message: Success";
                     intrusion_logs := []; log_error := None;
                     selected_log_date := None |},
          t ++ [NetCall (control_request E "home/control/mode" "ARMED")])
     | Some detail =>
         (Returns {| status_msg :=
                       Some ("Security System: Failed to Arm. Message: Error: "
                             +:+ detail);
                     intrusion_logs := []; log_error := None;
                     selected_log_date := None |},
          t ++ [NetCall (control_request E "home/control/mode" "ARMED");
                Stdout ("Error sending control command to ctrl_mode: "
                        +:+ detail)])
     end)
  ∧ (form !! "action" = Some "disarm" →
     manage_security E POST form t =
       match failure_detail (control_request E "home/control/mode" "DISARMED")
               (adafruit_io E t (control_request E "home/control/mode" "DISARMED")) with
       | None =>
           (Returns {| status_msg :=
                         Some "Security System: DISARMED. Message: Success";
                       intrusion_logs := []; log_error := None;
                       selected_log_date := None |},
            t ++ [NetCall (control_request E "home/control/mode" "DISARMED")])
       | Some detail =>
           (Returns {| status_msg :=
                         Some ("Security System: Failed to Disarm. Message: Error: "
                               +:+ detail);
                       intrusion_logs := []; log_error := None;
                       selected_log_date := None |},
            t ++ [NetCall (control_request E "home/control/mode" "DISARMED");
                  Stdout ("Error sending control command to ctrl_mode: "
                          +:+ detail)])
       end).
Proof.
  split; intros Haction; unfold manage_security; rewrite Haction.
  - rewrite decide_True by done. unfold mbind, io_bind.
    rewrite (send_control_command_detail E _ _ _ _ FEEDS_ctrl_mode).
    by destruct (failure_detail _ _).
  - rewrite decide_False, decide_True by done. unfold mbind, io_bind.
    rewrite (send_control_command_detail E _ _ _ _ FEEDS_ctrl_mode).
    by destruct (failure_detail _ _).
Qed.

(** X17. Asking [manage_security] for the logs of a date shows what
    [fetch_intrusion_logs] returns for that date, entries and error alike,
    with the date echoed back; the feed service is not called. *)
Theorem manage_security_shows_the_logs form log_date t :
  form !! "action" = Some "get_logs" →
  form !! "log_date" = Some log_date →
  log_date ≠ EmptyString →
  ∃ logs err evs,
    fetch_intrusion_logs E log_date t = (Returns (logs, err), t ++ evs)
    ∧ manage_security E POST form t
      = (Returns {| status_msg := None; intrusion_logs := logs;
                    log_error := err; selected_log_date := Some log_date |},
         t ++ evs)
    ∧ network_calls evs = [].
Proof.
  intros Haction Hdate Hne.
  destruct (fetch_intrusion_logs_returns log_date t) as (logs & err & evs & Hrun & Hnet).
  exists logs, err, evs. split; [done|]. split; [|done].
  unfold manage_security.
  rewrite Haction, Hdate, !decide_False, decide_True by done.
  destruct log_date as [|c rest]; [done|]. simpl.
  unfold mbind, io_bind. by rewrite Hrun.
Qed.

(** X18. [manage_security] never raises, and one request calls at most one
    of the two collaborators: the feed service when arming or disarming, the
    store when fetching logs. *)
Theorem manage_security_never_raises method form t :
  ∃ page evs,
    manage_security E method form t = (Returns page, t ++ evs)
    ∧ (network_calls evs = [] ∨ database_calls evs = []).
Proof.
  destruct method.
  { exists {| status_msg := None; intrusion_logs := []; log_error := None;
              selected_log_date := None |}, [].
    rewrite app_nil_r. split; [done|]. by left. }
  unfold manage_security.
  destruct (decide (form !! "action" = Some "arm")) as [Harm|Harm].
  { unfold mbind, io_bind.
    rewrite (send_control_command_detail E _ _ _ _ FEEDS_ctrl_mode).
    destruct (failure_detail _ _); (eexists _, _; split; [reflexivity|by right]). }
  destruct (decide (form !! "action" = Some "disarm")) as [Hdisarm|Hdisarm].
  { unfold mbind, io_bind.
    rewrite (send_control_command_detail E _ _ _ _ FEEDS_ctrl_mode).
    destruct (failure_detail _ _); (eexists _, _; split; [reflexivity|by right]). }
  destruct (decide (form !! "action" = Some "get_logs")) as [Hlogs|Hlogs];
    [|eexists _, []; rewrite app_nil_r; split; [reflexivity|by left]].
  destruct (form !! "log_date") as [log_date|];
    [|eexists _, []; rewrite app_nil_r; split; [reflexivity|by left]].
  destruct (Py.truthy log_date);
    [|eexists _, []; rewrite app_nil_r; split; [reflexivity|by left]].
  destruct (fetch_intrusion_logs_returns log_date t) as (logs & err & evs & Hrun & Hnet).
  unfold mbind, io_bind. rewrite Hrun.
  eexists _, evs. split; [reflexivity|by left].
Qed.

(** X19. [environmental_data] calls no collaborator on GET and on a POST
    that lacks the date or the sensor, missing or empty: the page then shows
    neither a chart nor an error. *)
Theorem environmental_data_idle method form t :
  method = GET
  ∨ form !! "date" = None ∨ form !! "date" = Some EmptyString
  ∨ form !! "sensor" = None ∨ form !! "sensor" = Some EmptyString →
  ∃ page,
    environmental_data jsonify_text E method form t = (Returns page, t)
    ∧ chart_data_json page = None ∧ env_error page = None.
Proof.
  intros Hidle. unfold environmental_data.
  destruct method; [by eexists|].
  destruct (form !! "date") as [[|c d]|], (form !! "sensor") as [[|c' s]|];
    simpl; try (by eexists).
  by destruct Hidle as [?|[?|[?|[?|?]]]].
Qed.

(** X20. A POST to [environmental_data] with a date and a sensor shows what
    [fetch_historical_data] returns for them, the chart rendered by
    [jsonify] and the error, and raises what it raises; a page that comes
    back shows either a chart or an error, never both and never neither. *)
Theorem environmental_data_chart_or_error form date sensor t :
  form !! "date" = Some date → date ≠ EmptyString →
  form !! "sensor" = Some sensor → sensor ≠ EmptyString →
  match fetch_historical_data E date sensor t with
  | (Returns (chart_data, err), t') =>
      environmental_data jsonify_text E POST form t
      = (Returns {| chart_data_json := jsonify_text <$> chart_data;
                    env_error := err;
                    selected_date := Some date;
                    selected_sensor := Some sensor |}, t')
  | (Raises e, t') =>
      environmental_data jsonify_text E POST form t = (Raises e, t')
  end
  ∧ ∀ page,
      (environmental_data jsonify_text E POST form t).1 = Returns page →
      (is_Some (chart_data_json page) ↔ env_error page = None).
Proof.
  intros Hdate Hd Hsensor Hs.
  assert (environmental_data jsonify_text E POST form t
          = ((fetch_historical_data E date sensor
               ≫= λ '(chart_data, err),
                    mret {| chart_data_json := jsonify_text <$> chart_data;
                            env_error := err;
                            selected_date := Some date;
                            selected_sensor := Some sensor |}) t)) as ->.
  { unfold environmental_data. rewrite Hdate, Hsensor.
    destruct date as [|c d]; [done|]. by destruct sensor as [|c' s]. }
  unfold mbind, io_bind.
  pose proof (fetch_historical_data_chart_xor_error date sensor t) as Hxor.
  destruct (fetch_historical_data E date sensor t) as [[[chart_data err]|e] t'];
    (split; [done|]); [|by intros page [=]].
  intros page [= <-]. simpl. rewrite <- (Hxor _ _ _ eq_refl).
  destruct chart_data; simpl; split; intros [? [=]]; by eexists.
Qed.

End PageProperties.

(** ** The live dashboard *)

Section LiveProperties.
Context `{Numeric} (E : environment).

(** One iteration for a key that resolves: one GET, then at most a printed
    line; an entry is written, or an [AttributeError] escapes. *)
Lemma fetch_live_step_run data k f t :
  FEEDS !! k = Some f →
  ∃ r log,
    fetch_live_step E data k t = (r, t ++ NetCall (live_request E f) :: log)
    ∧ (∀ ev, ev ∈ log → ∃ line, ev = Stdout line)
    ∧ match entry_for (adafruit_io E t (live_request E f)) with
      | Some v => r = Returns (<[k := v]> data)
      | None => ∃ msg, r = Raises (Exn AttributeError msg)
      end.
Proof.
  intros Hk. unfold fetch_live_step. rewrite Hk, (FEEDS_truthy _ _ Hk).
  unfold try_except, mbind, io_bind, requests_get, send.
  fold (live_request E f).
  assert (∀ line, ∀ ev, ev ∈ [Stdout line] → ∃ line', ev = Stdout line') as Hone.
  { intros line ev Hev. apply list_elem_of_singleton in Hev as ->. by eexists. }
  assert (∀ ev, ev ∈ @nil event → ∃ line', ev = Stdout line') as Hnil.
  { intros ev Hev. by apply elem_of_nil in Hev. }
  destruct (adafruit_io E t (live_request E f)) as [detail|st reason body]; simpl.
  - eexists _, [_]. split; [by rewrite <- app_assoc|]. split; [apply Hone|done].
  - unfold raise_for_status. simpl. destruct (is_error_status st); simpl.
    { eexists _, [_]. split; [by rewrite <- app_assoc|]. split; [apply Hone|done]. }
    unfold response_json. simpl. destruct body as [detail|j]; simpl.
    { eexists _, [_]. split; [by rewrite <- app_assoc|]. split; [apply Hone|done]. }
    destruct j; simpl;
      (eexists _, []; split; [reflexivity|]; split; [apply Hnil|]);
      first [done | by eexists].
Qed.

Lemma for_each_fetch_live_run keys acc t :
  Forall (λ k, is_Some (FEEDS !! k)) keys →
  ∃ r evs,
    for_each keys acc (fetch_live_step E) t = (r, t ++ evs)
    ∧ database_calls evs = []
    ∧ network_calls evs
      `prefix_of` omap (λ k, live_request E <$> FEEDS !! k) keys
    ∧ match r with
      | Returns data =>
          dom data = dom acc ∪ list_to_set keys
          ∧ network_calls evs = omap (λ k, live_request E <$> FEEDS !! k) keys
      | Raises e => exn_cls e = AttributeError
      end.
Proof.
  intros Hkeys. revert acc t.
  induction Hkeys as [|k keys [f Hk] _ IH]; intros acc t; simpl.
  - exists (Returns acc), []. rewrite app_nil_r. split; [done|]. split; [done|].
    split; [done|]. split; [|done].
    by rewrite ?list_to_set_nil, (right_id_L ∅ (∪)).
  - unfold mbind, io_bind. rewrite Hk. simpl.
    destruct (fetch_live_step_run acc k f t Hk) as (r & log & -> & Hlog & Hr).
    destruct (stdout_is_no_call log Hlog) as [Hnet Hdb].
    destruct (entry_for _) as [v|].
    + subst r.
      destruct (IH (<[k := v]> acc) (t ++ NetCall (live_request E f) :: log))
        as (r' & evs & -> & Hdb' & Hpre & Hr').
      exists r', ((NetCall (live_request E f) :: log) ++ evs).
      rewrite app_assoc. split; [done|].
      rewrite database_calls_app, network_calls_app. simpl.
      change (database_calls (NetCall (live_request E f) :: log))
        with (database_calls log).
      rewrite Hdb, Hdb', Hnet. simpl. split; [done|].
      split; [by apply prefix_cons|].
      destruct r' as [data|e]; [|done].
      destruct Hr' as [-> ->]. split; [|done].
      rewrite dom_insert_L, ?list_to_set_cons, !(assoc_L (∪)).
      by rewrite (comm_L (∪) (dom acc)).
    + destruct Hr as [msg ->].
      exists (Raises (Exn AttributeError msg)), (NetCall (live_request E f) :: log).
      split; [done|]. simpl.
      change (database_calls (NetCall (live_request E f) :: log))
        with (database_calls log).
      rewrite Hdb, Hnet. split; [done|]. split; [|done].
      apply prefix_cons, prefix_nil.
Qed.

Lemma home_is_fetch_live_data t : home E t = fetch_live_data E t.
Proof.
  unfold home, mbind, io_bind.
  by destruct (fetch_live_data E t) as [[data|e] t'].
Qed.

(** X21. The dashboard, [home] through [fetch_live_data], has two ends.
    Either it returns a dictionary with exactly the keys [temperature],
    [humidity] and [motion], after sending the three GETs in that order; or
    an [AttributeError] escapes after some first of them.  It raises nothing
    else and never calls the database driver. *)
Theorem live_dashboard_ends t :
  ∃ r evs,
    fetch_live_data E t = (r, t ++ evs)
    ∧ home E t = (r, t ++ evs)
    ∧ database_calls evs = []
    ∧ network_calls evs `prefix_of` live_requests E
    ∧ match r with
      | Returns data =>
          dom data = {["temperature"; "humidity"; "motion"]}
          ∧ network_calls evs = live_requests E
      | Raises e => exn_cls e = AttributeError
      end.
Proof.
  destruct (for_each_fetch_live_run ["temperature"; "humidity"; "motion"] ∅ t)
    as (r & evs & Hrun & Hdb & Hpre & Hr).
  { repeat constructor; by eexists. }
  exists r, evs. rewrite home_is_fetch_live_data.
  split; [done|]. split; [done|]. split; [done|]. split; [done|].
  destruct r as [data|e]; [|done]. destruct Hr as [-> ->]. split; [|done].
  rewrite dom_empty_L. set_solver.
Qed.

Lemma last_data_url_inj f1 f2 :
  last_data_url E f1 = last_data_url E f2 →
  f1 +:+ "/data/last" = f2 +:+ "/data/last".
Proof.
  unfold last_data_url. intros Heq.
  by repeat (apply (inj (String.app _)) in Heq).
Qed.

Lemma data_url_is_not_last f1 f2 :
  data_url E f1 = last_data_url E f2 → f1 +:+ "/data" = f2 +:+ "/data/last".
Proof.
  unfold data_url, last_data_url. intros Heq.
  by repeat (apply (inj (String.app _)) in Heq).
Qed.

(** X22. Whatever the account name, two different keys of [FEEDS] never
    share a URL: neither their URLs for posting a value, nor their URLs for
    reading the last one, nor the one's for posting with the other's for
    reading. *)
Theorem feeds_have_their_own_urls k1 k2 f1 f2 :
  FEEDS !! k1 = Some f1 → FEEDS !! k2 = Some f2 → k1 ≠ k2 →
  data_url E f1 ≠ data_url E f2
  ∧ last_data_url E f1 ≠ last_data_url E f2
  ∧ data_url E f1 ≠ last_data_url E f2.
Proof.
  intros H1 H2 Hne. apply FEEDS_entries in H1. apply FEEDS_entries in H2.
  repeat (apply elem_of_cons in H1 as [[= -> ->]|H1]);
    [..|by apply elem_of_nil in H1];
    repeat (apply elem_of_cons in H2 as [[= -> ->]|H2]);
    try (by apply elem_of_nil in H2); try done;
    (split; [|split]); intros Heq;
    first [ apply data_url_inj in Heq | apply last_data_url_inj in Heq
          | apply data_url_is_not_last in Heq ];
    discriminate Heq.
Qed.

Lemma ascii_upper_lower c : Py.ascii_upper (Py.ascii_lower c) = Py.ascii_upper c.
Proof. by destruct c as [[] [] [] [] [] [] [] []]. Qed.

Lemma upper_lower value : Py.upper (Py.lower value) = Py.upper value.
Proof.
  unfold Py.upper, Py.lower. induction value as [|c value IH]; [done|].
  simpl. by rewrite ascii_upper_lower, IH.
Qed.

(** X23. Except for [lcd_text], the control API ignores the letter case of
    an ASCII value: two ASCII values that lower-case to the same string give
    the same run, request and answer alike.  (On ASCII text [Py.upper] and
    [Py.lower] are Python's; beyond it two strings can agree in lower case
    and differ in upper case.) *)
Theorem control_device_api_ignores_case device v1 v2 t :
  device ≠ "lcd_text" →
  Py.isascii v1 = true →
  Py.isascii v2 = true →
  Py.lower v1 = Py.lower v2 →
  control_device_api E device v1 t = control_device_api E device v2 t.
Proof.
  intros Hdevice _ _ Hlower. unfold control_device_api.
  destruct (feed_key_map !! device) as [feed_key|] eqn:Hmap; [|done].
  apply feed_key_map_entries in Hmap.
  repeat (apply elem_of_cons in Hmap as [[= -> ->]|Hmap]);
    [..|by apply elem_of_nil in Hmap]; simpl.
  - by rewrite <- (upper_lower v1), <- (upper_lower v2), Hlower.
  - done.
  - by rewrite Hlower.
Qed.

(** X25. Every request the dashboard, the control API and the security
    page send carries the key header of [AIO_HEADERS] and the timeout of 5;
    the dashboard only sends GETs without a body, the other two only POSTs
    whose JSON body holds one field, [value]. *)
Theorem requests_carry_key_and_timeout t rq :
  (rq ∈ network_calls (home E t).2 →
   rq ∈ network_calls t
   ∨ (rq_method rq = GET ∧ rq_json rq = None
      ∧ rq_headers rq = AIO_HEADERS E ∧ rq_timeout rq = 5))
  ∧ (∀ device value,
       rq ∈ network_calls (control_device_api E device value t).2 →
       rq ∈ network_calls t
       ∨ (rq_method rq = POST
          ∧ (∃ v, rq_json rq = Some (JObj [("value", JStr v)]))
          ∧ rq_headers rq = AIO_HEADERS E ∧ rq_timeout rq = 5))
  ∧ (∀ method form,
       rq ∈ network_calls (manage_security E method form t).2 →
       rq ∈ network_calls t
       ∨ (rq_method rq = POST
          ∧ (∃ v, rq_json rq = Some (JObj [("value", JStr v)]))
          ∧ rq_headers rq = AIO_HEADERS E ∧ rq_timeout rq = 5)).
Proof.
  split; [|split].
  - rewrite home_is_fetch_live_data.
    destruct (for_each_fetch_live_run ["temperature"; "humidity"; "motion"] ∅ t)
      as (r & evs & Hrun & _ & Hpre & _).
    { repeat constructor; by eexists. }
    unfold fetch_live_data. rewrite Hrun. simpl.
    rewrite network_calls_app, elem_of_app. intros [?|Hin]; [by left|right].
    destruct Hpre as [rest Hrest].
    assert (rq ∈ live_requests E) as Hlive.
    { change (live_requests E)
        with (omap (λ k, live_request E <$> FEEDS !! k)
                ["temperature"; "humidity"; "motion"]).
      rewrite Hrest. apply elem_of_app. by left. }
    unfold live_requests in Hlive.
    repeat (apply elem_of_cons in Hlive as [->|Hlive]; [done|]).
    by apply elem_of_nil in Hlive.
  - intros device value. rewrite control_device_api_calls, elem_of_app.
    intros [?|Hin]; [by left|right].
    destruct (feed_key_map !! device); [|by apply elem_of_nil in Hin].
    destruct (String.eqb device "lcd_text");
      [destruct (32 <? String.length value)%nat;
         [by apply elem_of_nil in Hin|]
      |destruct (String.eqb device "mode")];
      apply list_elem_of_singleton in Hin as ->;
      (split; [done|]); (split; [by eexists|done]).
  - intros method form. rewrite manage_security_calls, elem_of_app.
    intros [?|Hin]; [by left|right].
    destruct method; [by apply elem_of_nil in Hin|].
    repeat case_decide; try (by apply elem_of_nil in Hin);
      apply list_elem_of_singleton in Hin as ->;
      (split; [done|]); (split; [by eexists|done]).
Qed.

End LiveProperties.

(** ** The properties above on concrete collaborators *)

Lemma control_device_api_reports_the_exchange_witness :
  (control_device_api Fixtures.down "light" "on" []).1
  = Returns Fixtures.light_failure
  ∧ ∃ rq,
      network_calls (control_device_api Fixtures.down "light" "on" []).2
      = network_calls [] ++ [rq]
      ∧ match failure_detail rq (adafruit_io Fixtures.down [] rq) with
        | None =>
            resp_status Fixtures.light_failure = 200
            ∧ resp_success Fixtures.light_failure = true
        | Some detail =>
            Fixtures.light_failure
            = {| resp_success := false;
                 resp_message := "Failed to control " +:+ "light" +:+ ": "
                                 +:+ "Error: " +:+ detail;
                 resp_status := 500 |}
        end.
Proof.
  split; [reflexivity|].
  apply (control_device_api_reports_the_exchange Fixtures.down "light" "on" []
           Fixtures.light_failure).
  - reflexivity.
  - simpl. lia.
Defined.


Lemma control_device_api_ignores_case_witness :
  control_device_api Fixtures.healthy "light" "On" []
  = control_device_api Fixtures.healthy "light" "oN" [].
Proof.
  apply (control_device_api_ignores_case Fixtures.healthy "light" "On" "oN" []);
    [discriminate|reflexivity|reflexivity|reflexivity].
Defined.

Lemma refused_connection_is_reported_witness :
  fetch_historical_data Fixtures.down "2024-01-05" "temperature" []
  = (Returns (None, Some "Failed to connect to the cloud database."),
     [DbConnect "postgresql://neon/db" false;
      Stdout "DATABASE CONNECTION ERROR: could not connect to server"])
  ∧ fetch_intrusion_logs Fixtures.down "2024-01-05" []
    = (Returns ([], Some "Failed to connect to the cloud database."),
       [DbConnect "postgresql://neon/db" false;
        Stdout "DATABASE CONNECTION ERROR: could not connect to server"]).
Proof.
  apply (refused_connection_is_reported Fixtures.down "2024-01-05" "temperature"
           "could not connect to server" []).
  reflexivity.
Defined.

Lemma failed_statement_is_reported_witness :
  ∃ detail,
    fetch_historical_data (Sample.env Sample.healthy Fixtures.failing_store)
      "2024-01-05" "humidity" []
    = (Returns (None, Some ("Database Query Error: " +:+ detail)),
       [] ++ [DbConnect "postgresql://neon/db" true; DbCursor;
              DbExecute (SelectHistory "humidity_pct") "2024-01-05";
              Stdout ("Database query error: " +:+ detail); DbClose])
    ∧ fetch_intrusion_logs (Sample.env Sample.healthy Fixtures.failing_store)
        "2024-01-05" []
      = (Returns ([], Some ("Database Query Error: " +:+ detail)),
         [] ++ [DbConnect "postgresql://neon/db" true; DbCursor;
                DbExecute SelectIntrusions "2024-01-05";
                Stdout ("Database query error: " +:+ detail); DbClose]).
Proof.
  apply (failed_statement_is_reported
           (Sample.env Sample.healthy Fixtures.failing_store)
           "2024-01-05" "humidity" "humidity_pct" []); try reflexivity.
  left. by eexists.
Defined.

Lemma null_value_raises_type_error_witness :
  ∃ e,
    (fetch_historical_data
       (Sample.env Sample.healthy (Sample.store Fixtures.table_with_null))
       "2024-01-05" "humidity" []).1 = Raises e.
Proof.
  apply (null_value_raises_type_error
           (Sample.env Sample.healthy (Sample.store Fixtures.table_with_null))
           "2024-01-05" "humidity" "humidity_pct" humidity_pct (2024, 1, 5)%nat []);
    try reflexivity.
  exists (@Row Sample.integer_columns (Some (Sample.at_time 8 30 0)) (Some 20%Z)
            None (MotionBool false) None),
    (Sample.at_time 8 30 0).
  repeat split. simpl. right. left.
Defined.

Lemma returned_chart_is_well_formed_witness :
  (fetch_historical_data Fixtures.healthy "2024-01-05" "temperature" []).1
  = Returns (Some Fixtures.temperature_chart, None)
  ∧ @None string = None
  ∧ ∃ ds,
      chart_datasets Fixtures.temperature_chart = [ds]
      ∧ length (chart_labels Fixtures.temperature_chart) = length (ds_data ds)
      ∧ Forall (λ label, String.length label = 5)
          (chart_labels Fixtures.temperature_chart)
      ∧ (("temperature" = "temperature" ∧ ds_label ds = "Temperature")
         ∨ ("temperature" = "humidity" ∧ ds_label ds = "Humidity")).
Proof.
  split; [reflexivity|].
  apply (returned_chart_is_well_formed Fixtures.healthy "2024-01-05" "temperature"
           [] Fixtures.temperature_chart None).
  reflexivity.
Defined.

Lemma empty_day_gives_empty_chart_witness :
  (fetch_historical_data (Sample.env Sample.healthy (Sample.store []))
     "2024-01-05" "humidity" []).1
  = Returns (Some {| chart_labels := [];
                     chart_datasets := [
                       {| ds_label := Py.capitalize "humidity"; ds_data := [];
                          ds_borderColor := "#3498db";
                          ds_tension := (3 # 10)%Q |} ] |},
             None).
Proof.
  apply (empty_day_gives_empty_chart (Sample.env Sample.healthy (Sample.store []))
           "2024-01-05" "humidity" "humidity_pct" (2024, 1, 5)%nat []);
    try reflexivity.
  intros r ts Hr. by apply elem_of_nil in Hr.
Defined.

Lemma manage_security_idle_witness :
  manage_security Fixtures.healthy POST {["action" := "reboot"]} []
  = (Returns {| status_msg := None; intrusion_logs := []; log_error := None;
                selected_log_date := None |}, []).
Proof.
  apply (manage_security_idle Fixtures.healthy POST {["action" := "reboot"]} []).
  right. repeat split; discriminate.
Defined.

Lemma manage_security_logs_need_a_date_witness :
  manage_security Fixtures.healthy POST {["action" := "get_logs"]} []
  = (Returns {| status_msg := None; intrusion_logs := [];
                log_error := Some "Please select a date to fetch logs.";
                selected_log_date := ({["action" := "get_logs"]} : gmap string string)
                                     !! "log_date" |}, []).
Proof.
  apply (manage_security_logs_need_a_date Fixtures.healthy
           {["action" := "get_logs"]} []); [reflexivity|by left].
Defined.

Lemma manage_security_arm_and_disarm_witness :
  manage_security Fixtures.down POST {["action" := "arm"]} []
  = match failure_detail (control_request Fixtures.down "home/control/mode" "ARMED")
            (adafruit_io Fixtures.down []
               (control_request Fixtures.down "home/control/mode" "ARMED")) with
    | None =>
        (Returns {| status_msg := Some "Security System: ARMED. Message: Success";
                    intrusion_logs := []; log_error := None;
                    selected_log_date := None |},
         [] ++ [NetCall (control_request Fixtures.down "home/control/mode" "ARMED")])
    | Some detail =>
        (Returns {| status_msg :=
                      Some ("Security System: Failed to Arm. Message: Error: "
                            +:+ detail);
                    intrusion_logs := []; log_error := None;
                    selected_log_date := None |},
         [] ++ [NetCall (control_request Fixtures.down "home/control/mode" "ARMED");
                Stdout ("Error sending control command to ctrl_mode: "
                        +:+ detail)])
    end.
Proof.
  apply (manage_security_arm_and_disarm Fixtures.down {["action" := "arm"]} []).
  reflexivity.
Defined.

Lemma manage_security_shows_the_logs_witness :
  ∃ logs err evs,
    fetch_intrusion_logs Fixtures.healthy "2024-01-05" []
    = (Returns (logs, err), [] ++ evs)
    ∧ manage_security Fixtures.healthy POST
        (<["log_date" := "2024-01-05"]> {["action" := "get_logs"]}) []
      = (Returns {| status_msg := None; intrusion_logs := logs;
                    log_error := err;
                    selected_log_date := Some "2024-01-05" |},
         [] ++ evs)
    ∧ network_calls evs = [].
Proof.
  apply (manage_security_shows_the_logs Fixtures.healthy
           (<["log_date" := "2024-01-05"]> {["action" := "get_logs"]})
           "2024-01-05" []); [reflexivity|reflexivity|discriminate].
Defined.

Lemma environmental_data_idle_witness :
  ∃ page,
    environmental_data Fixtures.render Fixtures.healthy POST
      {["date" := "2024-01-05"]} []
    = (Returns page, [])
    ∧ chart_data_json page = None ∧ env_error page = None.
Proof.
  apply (environmental_data_idle Fixtures.render Fixtures.healthy POST
           {["date" := "2024-01-05"]} []).
  right. right. right. by left.
Defined.

Lemma environmental_data_chart_or_error_witness :
  match fetch_historical_data Fixtures.healthy "2024-01-05" "temperature" [] with
  | (Returns (chart_data, err), t') =>
      environmental_data Fixtures.render Fixtures.healthy POST
        (<["sensor" := "temperature"]> {["date" := "2024-01-05"]}) []
      = (Returns {| chart_data_json := Fixtures.render <$> chart_data;
                    env_error := err;
                    selected_date := Some "2024-01-05";
                    selected_sensor := Some "temperature" |}, t')
  | (Raises e, t') =>
      environmental_data Fixtures.render Fixtures.healthy POST
        (<["sensor" := "temperature"]> {["date" := "2024-01-05"]}) []
      = (Raises e, t')
  end.
Proof.
  apply (environmental_data_chart_or_error Fixtures.render Fixtures.healthy
           (<["sensor" := "temperature"]> {["date" := "2024-01-05"]})
           "2024-01-05" "temperature" []);
    [reflexivity|discriminate|reflexivity|discriminate].
Defined.

(** The page for the temperatures of the sample day. *)
Example environmental_data_sample_page :
  (environmental_data Fixtures.render Fixtures.healthy POST
     (<["sensor" := "temperature"]> {["date" := "2024-01-05"]}) []).1
  = Returns {| chart_data_json := Some "chart with 3 points";
               env_error := None;
               selected_date := Some "2024-01-05";
               selected_sensor := Some "temperature" |}.
Proof. reflexivity. Qed.

Lemma fetch_live_data_one_entry_per_key_witness :
  ∃ data t1 t2 t3,
    fetch_live_data
      (Sample.env Sample.humidity_times_out (Sample.store Sample.table)) []
    = (Returns data, t3)
    ∧ dom data = {["temperature"; "humidity"; "motion"]}
    ∧ size data = 3
    ∧ data !! "temperature"
      = entry_for (Sample.humidity_times_out []
                     (live_request
                        (Sample.env Sample.humidity_times_out
                           (Sample.store Sample.table)) "home/temperature"))
    ∧ data !! "humidity"
      = entry_for (Sample.humidity_times_out t1
                     (live_request
                        (Sample.env Sample.humidity_times_out
                           (Sample.store Sample.table)) "home/humidity"))
    ∧ data !! "motion"
      = entry_for (Sample.humidity_times_out t2
                     (live_request
                        (Sample.env Sample.humidity_times_out
                           (Sample.store Sample.table)) "home/motion")).
Proof.
  apply (fetch_live_data_one_entry_per_key
           (Sample.env Sample.humidity_times_out (Sample.store Sample.table)) []).
  intros t rq st reason j. simpl. unfold Sample.humidity_times_out, Sample.reading.
  destruct (String.eqb _ _); [discriminate|].
  intros [= <- <- <-] _. by eexists.
Defined.

Lemma feeds_have_their_own_urls_witness :
  data_url Fixtures.healthy "home/control/light"
    ≠ data_url Fixtures.healthy "home/control/mode"
  ∧ last_data_url Fixtures.healthy "home/control/light"
      ≠ last_data_url Fixtures.healthy "home/control/mode"
  ∧ data_url Fixtures.healthy "home/control/light"
      ≠ last_data_url Fixtures.healthy "home/control/mode".
Proof.
  apply (feeds_have_their_own_urls Fixtures.healthy "ctrl_light" "ctrl_mode");
    [reflexivity|reflexivity|discriminate].
Defined.

Lemma requests_carry_key_and_timeout_witness :
  control_request Fixtures.healthy "home/control/light" "ON" ∈ network_calls []
  ∨ (rq_method (control_request Fixtures.healthy "home/control/light" "ON") = POST
     ∧ (∃ v, rq_json (control_request Fixtures.healthy "home/control/light" "ON")
             = Some (JObj [("value", JStr v)]))
     ∧ rq_headers (control_request Fixtures.healthy "home/control/light" "ON")
       = AIO_HEADERS Fixtures.healthy
     ∧ rq_timeout (control_request Fixtures.healthy "home/control/light" "ON") = 5).
Proof.
  apply (requests_carry_key_and_timeout Fixtures.healthy []
           (control_request Fixtures.healthy "home/control/light" "ON"))
    with "light" "on".
  vm_compute. apply list_elem_of_singleton. reflexivity.
Defined.
